(** * Cluster lifecycle controller (package [cluster]): model and properties

    A shallow embedding of the cluster controller of
    [pkg/platform/controller/cluster]: the event filter, the work-queue
    worker, the reconciler with its credential life cycle, and the periodic
    health probe.  Go pointers that the code mutates in place ([*Cluster],
    [*ClusterWrapper]) become values threaded through the functions; the API
    server, the informer cache, the providers and the work queue are
    collaborators behind an interface, and every call to one of them is
    recorded in a trace. *)

From Stdlib Require Import Ascii String.
From stdpp Require Import base strings gmap list.

Open Scope string_scope.
Open Scope list_scope.

(** ** Data model (platformv1) *)

(** A Go slice: [nil] and an allocated slice of length 0 are different
    values for [reflect.DeepEqual]. *)
Inductive slice (A : Type) : Type :=
| SliceNil
| SliceOf (items : list A).
Arguments SliceNil {A}.
Arguments SliceOf {A} items.

Definition slice_items {A} (s : slice A) : list A :=
  match s with
  | SliceNil => []
  | SliceOf l => l
  end.

Record LocalObjectReference := { RefName : string }.

Record ClusterSpec := {
  Type_ : string;
  TenantID : string;
  ClusterCredentialRef : option LocalObjectReference
}.

Record ClusterCondition := {
  CondType : string;
  CondStatus : string;
  Reason : string;
  Message : string
}.

Record ClusterStatus := {
  Phase : string;
  Version : string;
  Conditions : slice ClusterCondition
}.

Record Cluster := {
  Name : string;
  Spec : ClusterSpec;
  Status : ClusterStatus
}.

Record ClusterCredential := {
  CredName : string;
  CredTenantID : string;
  ClusterName : string
}.

(** [typesv1.Cluster]: the aggregate handed to providers. *)
Record ClusterWrapper := {
  WCluster : Cluster;
  WClusterCredential : ClusterCredential
}.

Definition ClusterInitializing : string := "Initializing".
Definition ClusterRunning : string := "Running".
Definition ClusterFailed : string := "Failed".
Definition ClusterTerminating : string := "Terminating".

Definition ConditionTrue : string := "True".
Definition ConditionFalse : string := "False".

Definition conditionTypeHealthCheck : string := "HealthCheck".
Definition failedHealthCheckReason : string := "FailedHealthCheck".

(** Field assignments through a pointer. *)
Definition set_ClusterCredentialRef (r : option LocalObjectReference) (c : Cluster) : Cluster :=
  {| Name := Name c;
     Spec := {| Type_ := Type_ (Spec c); TenantID := TenantID (Spec c);
                ClusterCredentialRef := r |};
     Status := Status c |}.

Definition set_Phase (p : string) (c : Cluster) : Cluster :=
  {| Name := Name c; Spec := Spec c;
     Status := {| Phase := p; Version := Version (Status c);
                  Conditions := Conditions (Status c) |} |}.

Definition set_Version (v : string) (c : Cluster) : Cluster :=
  {| Name := Name c; Spec := Spec c;
     Status := {| Phase := Phase (Status c); Version := v;
                  Conditions := Conditions (Status c) |} |}.

Definition set_Conditions (cs : slice ClusterCondition) (c : Cluster) : Cluster :=
  {| Name := Name c; Spec := Spec c;
     Status := {| Phase := Phase (Status c); Version := Version (Status c);
                  Conditions := cs |} |}.

Definition set_ClusterName (n : string) (cc : ClusterCredential) : ClusterCredential :=
  {| CredName := CredName cc; CredTenantID := CredTenantID cc; ClusterName := n |}.

Definition set_Reason_Message (r m : string) (c : ClusterCondition) : ClusterCondition :=
  {| CondType := CondType c; CondStatus := CondStatus c; Reason := r; Message := m |}.

Definition set_CondStatus (s : string) (c : ClusterCondition) : ClusterCondition :=
  {| CondType := CondType c; CondStatus := s; Reason := Reason c; Message := Message c |}.

(** [cluster.DeepCopy()]: values are immutable here, the copy is the value. *)
Definition DeepCopy (c : Cluster) : Cluster := c.

(** ** reflect.DeepEqual on the model types *)

Module reflect.

Definition eq_string (a b : string) : bool := String.eqb a b.

Definition eq_ptr {A} (eqA : A → A → bool) (p q : option A) : bool :=
  match p, q with
  | None, None => true
  | Some a, Some b => eqA a b
  | _, _ => false
  end.

Fixpoint eq_list {A} (eqA : A → A → bool) (l k : list A) : bool :=
  match l, k with
  | [], [] => true
  | a :: l', b :: k' => eqA a b && eq_list eqA l' k'
  | _, _ => false
  end.

Definition eq_slice {A} (eqA : A → A → bool) (s t : slice A) : bool :=
  match s, t with
  | SliceNil, SliceNil => true
  | SliceOf l, SliceOf k => eq_list eqA l k
  | _, _ => false
  end.

Definition eq_LocalObjectReference (a b : LocalObjectReference) : bool :=
  eq_string (RefName a) (RefName b).

Definition DeepEqual_ClusterSpec (a b : ClusterSpec) : bool :=
  eq_string (Type_ a) (Type_ b)
  && eq_string (TenantID a) (TenantID b)
  && eq_ptr eq_LocalObjectReference (ClusterCredentialRef a) (ClusterCredentialRef b).

Definition eq_ClusterCondition (a b : ClusterCondition) : bool :=
  eq_string (CondType a) (CondType b)
  && eq_string (CondStatus a) (CondStatus b)
  && eq_string (Reason a) (Reason b)
  && eq_string (Message a) (Message b).

Definition DeepEqual_ClusterStatus (a b : ClusterStatus) : bool :=
  eq_string (Phase a) (Phase b)
  && eq_string (Version a) (Version b)
  && eq_slice eq_ClusterCondition (Conditions a) (Conditions b).

End reflect.

(** ** The event filter *)

Definition needsUpdate (old new : Cluster) : bool :=
  if negb (reflect.DeepEqual_ClusterSpec (Spec old) (Spec new)) then true
  else if negb (reflect.DeepEqual_ClusterStatus (Status old) (Status new)) then true
  else false.

(** ** Errors *)

Inductive StatusReason :=
| StatusReasonUnknown
| StatusReasonNotFound
| StatusReasonAlreadyExists
| StatusReasonConflict.

(** The values of Go's [error] interface that reach this package; a nil
    error is [None : option error]. *)
Inductive error :=
| StatusError (reason : StatusReason) (message : string)
| errorString (s : string)
| wrapError (msg : string) (err : error).

(** [err.Error()] *)
Definition Error (e : error) : string :=
  match e with
  | StatusError _ m => m
  | errorString s => s
  | wrapError m _ => m
  end.

(** [errors.New] and [fmt.Errorf(prefix + "%w", err)] *)
Definition errors_New (s : string) : error := errorString s.
Definition Errorf_w (prefix : string) (err : error) : error :=
  wrapError (prefix +:+ Error err) err.

Module apierrors.

(** [ReasonForError] inspects the error value itself. *)
Definition ReasonForError (err : option error) : StatusReason :=
  match err with
  | Some (StatusError r _) => r
  | _ => StatusReasonUnknown
  end.

Definition IsNotFound (err : option error) : bool :=
  match ReasonForError err with
  | StatusReasonNotFound => true
  | _ => false
  end.

Definition IsAlreadyExists (err : option error) : bool :=
  match ReasonForError err with
  | StatusReasonAlreadyExists => true
  | _ => false
  end.

End apierrors.

(** A Go call returning [(value, error)] of which the caller reads the value
    only when the error is nil. *)
Definition result (A : Type) : Type := A + error.

(** [err != nil] *)
Definition notNil (err : option error) : bool :=
  match err with
  | Some _ => true
  | None => false
  end.

Definition result_err {A} (r : result A) : option error :=
  match r with
  | inl _ => None
  | inr e => Some e
  end.

(** ** Library helpers used by the controller *)

Module cache.

(** [strings.Split(s, "/")], with the piece being read in [cur]. *)
Fixpoint split_slash (cur : string) (s : string) : list string :=
  match s with
  | EmptyString => [cur]
  | String c rest =>
      if Ascii.eqb c "/"%char then cur :: split_slash "" rest
      else split_slash (cur +:+ String c "") rest
  end.

(** [strconv.Quote] on printable ASCII, which is what [%q] prints for a
    key made of such characters: the text between double quotes, with a
    backslash before every double quote and every backslash. *)
Fixpoint quote_body (s : string) : string :=
  match s with
  | EmptyString => EmptyString
  | String c rest =>
      if Ascii.eqb c "034"%char || Ascii.eqb c "\"%char
      then String "\"%char (String c (quote_body rest))
      else String c (quote_body rest)
  end.

Definition Quote (s : string) : string :=
  String "034"%char (quote_body s +:+ String "034"%char EmptyString).

Definition SplitMetaNamespaceKey (key : string) : string * string * option error :=
  match split_slash "" key with
  | [name] => ("", name, None)
  | [namespace; name] => (namespace, name, None)
  | _ => ("", "", Some (errorString ("unexpected key format: " +:+ Quote key)))
  end.

End cache.

Module fields.

(** [EscapeValue]: backslash, comma and equals sign get a backslash. *)
Fixpoint EscapeValue (s : string) : string :=
  match s with
  | EmptyString => EmptyString
  | String c rest =>
      if Ascii.eqb c "\"%char || Ascii.eqb c ","%char || Ascii.eqb c "="%char
      then String "\"%char (String c (EscapeValue rest))
      else String c (EscapeValue rest)
  end.

(** [OneTermEqualSelector(k, v).String()] *)
Definition OneTermEqualSelector (k v : string) : string :=
  k +:+ "=" +:+ EscapeValue v.

End fields.

Inductive PatchType := JSONPatchType | MergePatchType | StrategicMergePatchType.

(** [version.Info]; its [String()] is the git version. *)
Record VersionInfo := { GitVersion : string }.
Definition VersionInfo_String (v : VersionInfo) : string := GitVersion v.

(** ** Calls to collaborators, in the order they are made *)

Inductive Event :=
| LogInfo (msg : string)
| LogError (err : error) (msg : string)
| HandleError (msg : string)
| ListerGet (name : string)
| CredentialsList (fieldSelector : string)
| CredentialsCreate (credential : ClusterCredential)
| CredentialsGet (name : string)
| CredentialsUpdate (credential : ClusterCredential)
| ClustersUpdate (cluster : Cluster)
| ClustersPatch (name : string) (pt : PatchType) (data : string)
| GetClusterWrapper (cluster : Cluster)
| ProviderOnCreate (wrapper : ClusterWrapper)
| ProviderOnUpdate (wrapper : ClusterWrapper)
| BuildClientSet (cluster : Cluster)
| DiscoveryServerVersion
| DeleterDelete (key : string)
| QueueGet
| QueueForget (key : string)
| QueueAddRateLimited (key : string)
| QueueDone (key : string).

(** Requests that reach the platform API server. *)
Definition is_api_call (e : Event) : bool :=
  match e with
  | CredentialsList _ | CredentialsCreate _ | CredentialsGet _
  | CredentialsUpdate _ | ClustersUpdate _ | ClustersPatch _ _ _ => true
  | _ => false
  end.

Definition is_update_call (e : Event) : bool :=
  match e with
  | CredentialsUpdate _ | ClustersUpdate _ => true
  | _ => false
  end.

(** A loop that has not returned within the given number of iterations. *)
Inductive fueled (A : Type) : Type :=
| Returns (a : A)
| OutOfFuel.
Arguments Returns {A} a.
Arguments OutOfFuel {A}.

(** Modelled from the spec: [Cluster.SetCondition] of [api/platform/v1] is
    not among the sources.  The health monitor's step 5 upserts the
    condition: it merges by [Type], updating Status/Reason/Message in place,
    and adds the condition when no entry has its type. *)
Definition merge_condition (newCondition condition : ClusterCondition) : ClusterCondition :=
  if String.eqb (CondType condition) (CondType newCondition)
  then {| CondType := CondType condition;
          CondStatus := CondStatus newCondition;
          Reason := Reason newCondition;
          Message := Message newCondition |}
  else condition.

Definition has_condition (ty : string) (l : list ClusterCondition) : bool :=
  existsb (λ condition, String.eqb (CondType condition) ty) l.

Definition SetCondition (newCondition : ClusterCondition) (c : Cluster) : Cluster :=
  let old := slice_items (Conditions (Status c)) in
  let merged := map (merge_condition newCondition) old in
  set_Conditions
    (SliceOf (if has_condition (CondType newCondition) old
              then merged else merged ++ [newCondition]))
    c.

(** ** The world the controller runs in *)

(** [ext] is the state of everything outside the process (API server,
    informer cache, managed clusters, queue contents); [trace] lists the
    calls made so far, oldest first; [healthCache] is the controller's set
    of keys with a health loop. *)
Record World (S : Type) := {
  ext : S;
  trace : list Event;
  healthCache : gset string
}.
Arguments ext {S} _.
Arguments trace {S} _.
Arguments healthCache {S} _.

Definition M (S A : Type) : Type := World S → A * World S.

#[global] Instance M_ret {S} : MRet (M S) := λ A a w, (a, w).
#[global] Instance M_bind {S} : MBind (M S) :=
  λ A B f m w, let '(a, w') := m w in f a w'.

(** A call that may change the outside state. *)
Definition call {S A} (e : Event) (f : S → A * S) : M S A :=
  λ w, let '(a, s') := f (ext w) in
       (a, {| ext := s'; trace := trace w ++ [e]; healthCache := healthCache w |}).

(** A read of the local informer cache. *)
Definition query {S A} (e : Event) (f : S → A) : M S A :=
  λ w, (f (ext w),
        {| ext := ext w; trace := trace w ++ [e]; healthCache := healthCache w |}).

Definition emit {S} (e : Event) : M S () :=
  λ w, (tt, {| ext := ext w; trace := trace w ++ [e]; healthCache := healthCache w |}).

Definition healthCache_Remove {S} (key : string) : M S () :=
  λ w, (tt, {| ext := ext w; trace := trace w; healthCache := healthCache w ∖ {[key]} |}).

Definition when {S} (b : bool) (m : M S ()) : M S () :=
  if b then m else mret tt.

(** ** Interfaces of the collaborators *)

Record ClusterCredentialInterface (S : Type) := {
  Create : ClusterCredential → S → (ClusterCredential * option error) * S;
  CredGet : string → S → result ClusterCredential * S;
  List : string → S → result (list ClusterCredential) * S;
  CredUpdate : ClusterCredential → S → option error * S
}.
Arguments Create {S} _.
Arguments CredGet {S} _.
Arguments List {S} _.
Arguments CredUpdate {S} _.

Record ClusterInterface (S : Type) := {
  Update : Cluster → S → option error * S;
  Patch : string → PatchType → string → S → option error * S
}.
Arguments Update {S} _.
Arguments Patch {S} _.

Record PlatformV1Interface (S : Type) := {
  ClusterCredentials : ClusterCredentialInterface S;
  Clusters : ClusterInterface S
}.
Arguments ClusterCredentials {S} _.
Arguments Clusters {S} _.

(** Providers edit the wrapper in place: the edited wrapper is returned
    next to the error. *)
Record Provider (S : Type) := {
  OnCreate : ClusterWrapper → S → (ClusterWrapper * option error) * S;
  OnUpdate : ClusterWrapper → S → (ClusterWrapper * option error) * S
}.
Arguments OnCreate {S} _.
Arguments OnUpdate {S} _.

Record ExternalClientSet (S : Type) := {
  ServerVersion : S → result VersionInfo * S
}.
Arguments ServerVersion {S} _.

(** The fields of [Controller] that are interfaces. *)
Record Controller (S : Type) := {
  queue_Get : S → (string * bool) * S;
  lister_Get : string → S → result Cluster;
  platformClient : PlatformV1Interface S;
  deleter_Delete : string → S → option error * S
}.
Arguments queue_Get {S} _.
Arguments lister_Get {S} _.
Arguments platformClient {S} _.
Arguments deleter_Delete {S} _.

(** Functions of other packages of the repository and of client-go. *)
Record Imports (S : Type) := {
  GetProvider : string → result (Provider S);
  GetCluster : Cluster → S → result ClusterWrapper * S;
  BuildExternalClientSet : Cluster → S → result (ExternalClientSet S) * S;
  GetPatchBytes : Cluster → Cluster → result string
}.
Arguments GetProvider {S} _.
Arguments GetCluster {S} _.
Arguments BuildExternalClientSet {S} _.
Arguments GetPatchBytes {S} _.

(** The credential literal that [ensureClusterCredential] sends to Create. *)
Definition fresh_credential (cluster : Cluster) : ClusterCredential :=
  {| CredName := ""; CredTenantID := TenantID (Spec cluster);
     ClusterName := Name cluster |}.

(** ** The controller *)

Section Cluster_controller.

Context {S : Type}.
Variable c : Controller S.
Variable pkg : Imports S.

Definition credentials : ClusterCredentialInterface S :=
  ClusterCredentials (platformClient c).
Definition clusters : ClusterInterface S :=
  Clusters (platformClient c).

(** [ensureSyncOldClusterCredential] syncs an old cluster that has no
    ClusterCredentialRef.  Returns the cluster as the call leaves it. *)
Definition ensureSyncOldClusterCredential (cluster : Cluster)
  : M S (Cluster * option error) :=
  match ClusterCredentialRef (Spec cluster) with
  | Some _ => mret (cluster, None)
  | None =>
      let fieldSelector := fields.OneTermEqualSelector "clusterName" (Name cluster) in
      clusterCredentials ← call (CredentialsList fieldSelector) (List credentials fieldSelector);
      match clusterCredentials with
      | inr err => mret (cluster, Some err)
      | inl [] =>
          if String.eqb (Type_ (Spec cluster)) "Imported"
          then mret (cluster, Some (errors_New "waiting create ClusterCredential"))
          else mret (cluster, None)
      | inl (credential :: _) =>
          let cluster :=
            set_ClusterCredentialRef (Some {| RefName := CredName credential |}) cluster in
          err ← call (ClustersUpdate cluster) (Update clusters cluster);
          match err with
          | Some err => mret (cluster, Some err)
          | None => mret (cluster, None)
          end
      end
  end.

Definition ensureClusterCredential (cluster : Cluster)
  : M S (Cluster * option error) :=
  match ClusterCredentialRef (Spec cluster) with
  | None =>
      if String.eqb (Type_ (Spec cluster)) "Imported"
      then mret (cluster, None)
      else
        let credential :=
          {| CredName := ""; CredTenantID := TenantID (Spec cluster);
             ClusterName := Name cluster |} in
        '(credential, err) ←
          call (CredentialsCreate credential) (Create credentials credential);
        if notNil err && negb (apierrors.IsAlreadyExists err)
        then mret (cluster, err)
        else
          let cluster :=
            set_ClusterCredentialRef (Some {| RefName := CredName credential |}) cluster in
          err ← call (ClustersUpdate cluster) (Update clusters cluster);
          match err with
          | Some err => mret (cluster, Some err)
          | None => mret (cluster, None)
          end
  | Some ref =>
      credential ← call (CredentialsGet (RefName ref)) (CredGet credentials (RefName ref));
      match credential with
      | inr err => mret (cluster, Some err)
      | inl credential =>
          if negb (String.eqb (ClusterName credential) (Name cluster))
          then
            let credential := set_ClusterName (Name cluster) credential in
            err ← call (CredentialsUpdate credential) (CredUpdate credentials credential);
            match err with
            | Some err => mret (cluster, Some err)
            | None => mret (cluster, None)
            end
          else mret (cluster, None)
      end
  end.

(** The loop of [onCreate]; each iteration costs one unit of fuel. *)
Fixpoint onCreate_loop (fuel : nat) (provider : Provider S) (clusterWrapper : ClusterWrapper)
  : M S (fueled (option error)) :=
  if String.eqb (Phase (Status (WCluster clusterWrapper))) ClusterInitializing
  then
    match fuel with
    | O => mret OutOfFuel
    | Datatypes.S fuel =>
        '(clusterWrapper, err) ←
          call (ProviderOnCreate clusterWrapper) (OnCreate provider clusterWrapper);
        err ← call (CredentialsUpdate (WClusterCredential clusterWrapper))
                   (CredUpdate credentials (WClusterCredential clusterWrapper));
        err ← call (ClustersUpdate (WCluster clusterWrapper))
                   (Update clusters (WCluster clusterWrapper));
        match err with
        | Some err => mret (Returns (Some err))
        | None => onCreate_loop fuel provider clusterWrapper
        end
    end
  else mret (Returns None).

Definition onCreate (fuel : nat) (cluster : Cluster) : M S (fueled (option error)) :=
  match GetProvider pkg (Type_ (Spec cluster)) with
  | inr err => mret (Returns (Some err))
  | inl provider =>
      '(cluster, err) ← ensureClusterCredential cluster;
      match err with
      | Some err => mret (Returns (Some (Errorf_w "ensureClusterCredential error: " err)))
      | None =>
          clusterWrapper ← call (GetClusterWrapper cluster) (GetCluster pkg cluster);
          match clusterWrapper with
          | inr err => mret (Returns (Some err))
          | inl clusterWrapper => onCreate_loop fuel provider clusterWrapper
          end
      end
  end.

Definition onUpdate (cluster : Cluster) : M S (option error) :=
  match GetProvider pkg (Type_ (Spec cluster)) with
  | inr err => mret (Some err)
  | inl provider =>
      clusterWrapper ← call (GetClusterWrapper cluster) (GetCluster pkg cluster);
      match clusterWrapper with
      | inr err => mret (Some err)
      | inl clusterWrapper =>
          '(clusterWrapper, err) ←
            call (ProviderOnUpdate clusterWrapper) (OnUpdate provider clusterWrapper);
          err ← call (CredentialsUpdate (WClusterCredential clusterWrapper))
                     (CredUpdate credentials (WClusterCredential clusterWrapper));
          err ← call (ClustersUpdate (WCluster clusterWrapper))
                     (Update clusters (WCluster clusterWrapper));
          match err with
          | Some err => mret (Some err)
          | None => mret None
          end
      end
  end.

Definition reconcile (fuel : nat) (key : string) (cluster : Cluster)
  : M S (fueled (option error)) :=
  '(cluster, err) ← ensureSyncOldClusterCredential cluster;
  match err with
  | Some err => mret (Returns (Some (Errorf_w "sync old ClusterCredential error: " err)))
  | None =>
      let phase := Phase (Status cluster) in
      if String.eqb phase ClusterInitializing then onCreate fuel cluster
      else if String.eqb phase ClusterRunning || String.eqb phase ClusterFailed then
        err ← onUpdate cluster; mret (Returns err)
      else if String.eqb phase ClusterTerminating then
        emit (LogInfo "Cluster has been terminated. Attempting to cleanup resources");;
        err ← call (DeleterDelete key) (deleter_Delete c key);
        when (negb (notNil err)) (emit (LogInfo "Machine has been successfully deleted"));;
        mret (Returns err)
      else
        emit (LogInfo "unknown cluster phase");;
        mret (Returns None)
  end.

(** The body of [syncCluster], before the deferred log line runs. *)
Definition syncCluster_body (fuel : nat) (key : string) : M S (fueled (option error)) :=
  match cache.SplitMetaNamespaceKey key with
  | (_, _, Some err) => mret (Returns (Some err))
  | (_, name, None) =>
      cluster ← query (ListerGet name) (lister_Get c name);
      let err := result_err cluster in
      when (apierrors.IsNotFound err) (emit (LogInfo "cluster has been deleted"));;
      match cluster with
      | inr err =>
          emit (HandleError ("unable to retrieve cluster " +:+ key +:+ " from store: "
                             +:+ Error err));;
          mret (Returns (Some err))
      | inl cluster => reconcile fuel key cluster
      end
  end.

Definition syncCluster (fuel : nat) (key : string) : M S (fueled (option error)) :=
  r ← syncCluster_body fuel key;
  emit (LogInfo "Finished syncing cluster");;
  mret r.

(** One turn of the worker; [Done] is deferred to the end of the call. *)
Definition processNextWorkItem (fuel : nat) : M S (fueled bool) :=
  '(key, quit) ← call QueueGet (queue_Get c);
  if (quit : bool) then mret (Returns false)
  else
    r ← syncCluster fuel key;
    match r with
    | OutOfFuel => mret OutOfFuel
    | Returns None =>
        emit (QueueForget key);;
        emit (QueueDone key);;
        mret (Returns true)
    | Returns (Some err) =>
        emit (HandleError ("error processing cluster " +:+ key +:+ " (will retry): "
                           +:+ Error err));;
        emit (QueueAddRateLimited key);;
        emit (QueueDone key);;
        mret (Returns true)
    end.

Definition checkHealth (cluster : Cluster) : M S (Cluster * option error) :=
  let oldCluster := DeepCopy cluster in
  let healthCheckCondition :=
    {| CondType := conditionTypeHealthCheck; CondStatus := ConditionFalse;
       Reason := ""; Message := "" |} in
  client ← call (BuildClientSet cluster) (BuildExternalClientSet pkg cluster);
  '(cluster, healthCheckCondition) ←
    match client with
    | inr err =>
        mret (set_Phase ClusterFailed cluster,
              set_Reason_Message failedHealthCheckReason (Error err) healthCheckCondition)
    | inl client =>
        version ← call DiscoveryServerVersion (ServerVersion client);
        match version with
        | inr err =>
            mret (set_Phase ClusterFailed cluster,
                  set_Reason_Message failedHealthCheckReason (Error err) healthCheckCondition)
        | inl version =>
            mret (set_Version (VersionInfo_String version) (set_Phase ClusterRunning cluster),
                  set_CondStatus ConditionTrue healthCheckCondition)
        end
    end;
  let cluster := SetCondition healthCheckCondition cluster in
  match GetPatchBytes pkg oldCluster cluster with
  | inr err => mret (cluster, Some (Errorf_w "GetPatchBytes error: " err))
  | inl patchBytes =>
      err ← call (ClustersPatch (Name cluster) StrategicMergePatchType patchBytes)
                 (Patch clusters (Name cluster) StrategicMergePatchType patchBytes);
      match err with
      | Some err => mret (cluster, Some (Errorf_w "update cluster health status error: " err))
      | None => mret (cluster, None)
      end
  end.

(** One tick of the poll function returned by [watchHealth(ctx, key)]:
    the pair is [(done, err)]. *)
Definition watchHealth (key : string) : M S (bool * option error) :=
  cluster ← query (ListerGet key) (lister_Get c key);
  match cluster with
  | inr err =>
      if apierrors.IsNotFound (Some err) then
        emit (LogInfo "Stop health check because cluster has been deleted");;
        healthCache_Remove key;;
        mret (true, None)
      else mret (false, None)
  | inl cluster =>
      let phase := Phase (Status cluster) in
      if negb (String.eqb phase ClusterRunning || String.eqb phase ClusterFailed)
      then mret (false, None)
      else
        '(_, err) ← checkHealth cluster;
        match err with
        | Some err => emit (LogError err "Check health error")
        | None => mret tt
        end;;
        mret (false, None)
  end.

End Cluster_controller.

(** ** An in-memory control plane for running the controller *)

Module Fake.

Record Store := {
  st_queue : list string;
  st_clusters : list Cluster;
  st_credentials : list ClusterCredential;
  st_version : result VersionInfo;
  st_cache_broken : bool;
  st_api_down : bool
}.

Definition with_clusters (cs : list Cluster) (s : Store) : Store :=
  {| st_queue := st_queue s; st_clusters := cs; st_credentials := st_credentials s;
     st_version := st_version s; st_cache_broken := st_cache_broken s;
     st_api_down := st_api_down s |}.

Definition with_credentials (ccs : list ClusterCredential) (s : Store) : Store :=
  {| st_queue := st_queue s; st_clusters := st_clusters s; st_credentials := ccs;
     st_version := st_version s; st_cache_broken := st_cache_broken s;
     st_api_down := st_api_down s |}.

Definition with_queue (q : list string) (s : Store) : Store :=
  {| st_queue := q; st_clusters := st_clusters s; st_credentials := st_credentials s;
     st_version := st_version s; st_cache_broken := st_cache_broken s;
     st_api_down := st_api_down s |}.

Definition notFound (name : string) : error :=
  StatusError StatusReasonNotFound (name +:+ " not found").
Definition alreadyExists (name : string) : error :=
  StatusError StatusReasonAlreadyExists (name +:+ " already exists").
Definition connRefused : error := errorString "conn refused".

Definition find_cluster (name : string) (s : Store) : option Cluster :=
  find (λ x, String.eqb (Name x) name) (st_clusters s).

Definition find_credential (name : string) (s : Store) : option ClusterCredential :=
  find (λ x, String.eqb (CredName x) name) (st_credentials s).

Definition replace_cluster (x : Cluster) (l : list Cluster) : list Cluster :=
  map (λ y, if String.eqb (Name y) (Name x) then x else y) l.

Definition replace_credential (x : ClusterCredential) (l : list ClusterCredential)
  : list ClusterCredential :=
  map (λ y, if String.eqb (CredName y) (CredName x) then x else y) l.

Definition fake_credentials : ClusterCredentialInterface Store :=
  {| Create := λ cc s,
       let named := {| CredName := "cc-" +:+ ClusterName cc;
                       CredTenantID := CredTenantID cc;
                       ClusterName := ClusterName cc |} in
       if st_api_down s then (({| CredName := ""; CredTenantID := ""; ClusterName := "" |},
                               Some connRefused), s)
       else match find_credential (CredName named) s with
            | Some _ => (({| CredName := ""; CredTenantID := ""; ClusterName := "" |},
                          Some (alreadyExists (CredName named))), s)
            | None => ((named, None), with_credentials (st_credentials s ++ [named]) s)
            end;
     CredGet := λ name s,
       match find_credential name s with
       | Some cc => (inl cc, s)
       | None => (inr (notFound name), s)
       end;
     List := λ selector s,
       (inl (filter (λ cc, fields.OneTermEqualSelector "clusterName" (ClusterName cc)
                            = selector) (st_credentials s)), s);
     CredUpdate := λ cc s,
       if st_api_down s then (Some connRefused, s)
       else match find_credential (CredName cc) s with
            | Some _ => (None, with_credentials (replace_credential cc (st_credentials s)) s)
            | None => (Some (notFound (CredName cc)), s)
            end |}.

Definition fake_clusters : ClusterInterface Store :=
  {| Update := λ x s,
       if st_api_down s then (Some connRefused, s)
       else match find_cluster (Name x) s with
            | Some _ => (None, with_clusters (replace_cluster x (st_clusters s)) s)
            | None => (Some (notFound (Name x)), s)
            end;
     Patch := λ name _ _ s,
       if st_api_down s then (Some connRefused, s)
       else match find_cluster name s with
            | Some _ => (None, s)
            | None => (Some (notFound name), s)
            end |}.

Definition controller : Controller Store :=
  {| queue_Get := λ s,
       match st_queue s with
       | [] => (("", true), s)
       | key :: rest => ((key, false), with_queue rest s)
       end;
     lister_Get := λ name s,
       if st_cache_broken s then inr (errorString "cache unavailable")
       else match find_cluster name s with
            | Some x => inl x
            | None => inr (notFound name)
            end;
     platformClient :=
       {| ClusterCredentials := fake_credentials; Clusters := fake_clusters |};
     deleter_Delete := λ key s,
       (None, with_clusters (filter (λ x, Name x ≠ key) (st_clusters s)) s) |}.

(** Three providers: one that finishes at once, one that fails and marks
    the cluster failed, one that fails without touching the phase. *)
Definition finishing : Provider Store :=
  {| OnCreate := λ w s,
       (({| WCluster := set_Phase ClusterRunning (WCluster w);
            WClusterCredential := WClusterCredential w |}, None), s);
     OnUpdate := λ w s, ((w, None), s) |}.

Definition failing : Provider Store :=
  {| OnCreate := λ w s,
       (({| WCluster := set_Phase ClusterFailed (WCluster w);
            WClusterCredential := WClusterCredential w |},
         Some (errorString "install failed")), s);
     OnUpdate := λ w s, ((w, Some (errorString "install failed")), s) |}.

Definition stuck : Provider Store :=
  {| OnCreate := λ w s, ((w, Some (errorString "machine not ready")), s);
     OnUpdate := λ w s, ((w, Some (errorString "machine not ready")), s) |}.

Definition imports : Imports Store :=
  {| GetProvider := λ ty,
       if String.eqb ty "Finishing" then inl finishing
       else if String.eqb ty "Failing" then inl failing
       else if String.eqb ty "Stuck" then inl stuck
       else if String.eqb ty "Imported" then inl finishing
       else inr (errorString ("provider not found: " +:+ ty));
     GetCluster := λ x s,
       (inl {| WCluster := x;
               WClusterCredential :=
                 default {| CredName := ""; CredTenantID := ""; ClusterName := "" |}
                         (r ← ClusterCredentialRef (Spec x);
                          find_credential (RefName r) s) |}, s);
     BuildExternalClientSet := λ x s,
       match ClusterCredentialRef (Spec x) with
       | Some _ => (inl {| ServerVersion := λ s, (st_version s, s) |}, s)
       | None => (inr connRefused, s)
       end;
     GetPatchBytes := λ old new,
       inl ("{status:{phase:" +:+ Phase (Status new) +:+ "}}") |}.

Definition world (s : Store) : World Store :=
  {| ext := s; trace := []; healthCache := ∅ |}.

Definition cluster (name ty phase : string) (ref : option string) : Cluster :=
  {| Name := name;
     Spec := {| Type_ := ty; TenantID := "default";
                ClusterCredentialRef := (λ n, {| RefName := n |}) <$> ref |};
     Status := {| Phase := phase; Version := ""; Conditions := SliceNil |} |}.

Definition store (q : list string) (cs : list Cluster) (ccs : list ClusterCredential)
  : Store :=
  {| st_queue := q; st_clusters := cs; st_credentials := ccs;
     st_version := inl {| GitVersion := "v1.18.3" |};
     st_cache_broken := false; st_api_down := false |}.


Definition with_cache_broken (s : Store) : Store :=
  {| st_queue := st_queue s; st_clusters := st_clusters s;
     st_credentials := st_credentials s; st_version := st_version s;
     st_cache_broken := true; st_api_down := st_api_down s |}.

Definition with_api_down (s : Store) : Store :=
  {| st_queue := st_queue s; st_clusters := st_clusters s;
     st_credentials := st_credentials s; st_version := st_version s;
     st_cache_broken := st_cache_broken s; st_api_down := true |}.


(** The wrappers [GetCluster] builds once the credential exists. *)
Definition failing_wrapper : ClusterWrapper :=
  {| WCluster := cluster "c1" "Failing" "Initializing" (Some "cc-c1");
     WClusterCredential :=
       {| CredName := "cc-c1"; CredTenantID := "default"; ClusterName := "c1" |} |}.

Definition stuck_wrapper : ClusterWrapper :=
  {| WCluster := cluster "c1" "Stuck" "Initializing" (Some "cc-c1");
     WClusterCredential :=
       {| CredName := "cc-c1"; CredTenantID := "default"; ClusterName := "c1" |} |}.

(** A world in which the health loop of [key] has been started. *)
Definition watching (key : string) (s : Store) : World Store :=
  {| ext := s; trace := []; healthCache := {[key]} |}.

(** Clusters and credentials of the scenarios below. *)
Definition imported_c1 : Cluster := cluster "c1" "Imported" "Initializing" None.
Definition fresh_c1 : Cluster := cluster "c1" "Finishing" "Initializing" None.
Definition failing_c1 : Cluster := cluster "c1" "Failing" "Initializing" None.
Definition stuck_c1 : Cluster := cluster "c1" "Stuck" "Initializing" None.
Definition legacy_c1 : Cluster := cluster "c1" "Finishing" "Running" None.
Definition linked_c1 : Cluster := cluster "c1" "Finishing" "Running" (Some "cc-c1").
Definition pending_c1 : Cluster := cluster "c1" "Finishing" "Initializing" (Some "cc-c1").
Definition cc_c1 : ClusterCredential :=
  {| CredName := "cc-c1"; CredTenantID := "default"; ClusterName := "c1" |}.
Definition cc_stale : ClusterCredential :=
  {| CredName := "cc-c1"; CredTenantID := "default"; ClusterName := "old-name" |}.

End Fake.

(** ** Vocabulary of the statements *)

(** The condition [checkHealth] records after a failed probe, and after a
    successful one. *)
Definition failedCondition (err : error) : ClusterCondition :=
  {| CondType := conditionTypeHealthCheck; CondStatus := ConditionFalse;
     Reason := failedHealthCheckReason; Message := Error err |}.

Definition healthyCondition : ClusterCondition :=
  {| CondType := conditionTypeHealthCheck; CondStatus := ConditionTrue;
     Reason := ""; Message := "" |}.

Definition conditions_of (c : Cluster) : list ClusterCondition :=
  slice_items (Conditions (Status c)).

(** [condition] has been upserted into [before], giving [after]: it is
    there, it is the only one of its type, and the conditions of other
    types are the same on both sides. *)
Definition upserted (condition : ClusterCondition) (before after : Cluster) : Prop :=
  condition ∈ conditions_of after
  ∧ (∀ x, x ∈ conditions_of after → CondType x = CondType condition → x = condition)
  ∧ (∀ x, CondType x ≠ CondType condition →
          (x ∈ conditions_of after ↔ x ∈ conditions_of before)).

(** The events appended by a run. *)
Definition api_calls (t : list Event) : list Event :=
  List.filter is_api_call t.

Definition update_calls (t : list Event) : list Event :=
  List.filter is_update_call t.

(** The world once the lister has been read. *)
Definition after_lookup {S} (key : string) (w : World S) : World S :=
  {| ext := ext w; trace := trace w ++ [ListerGet key]; healthCache := healthCache w |}.

(** ** The informer's event handlers *)

(** The handlers run on the informer's goroutine and touch only the logger,
    the runtime error handler and the queue's [Add]; what they do is listed
    in order. *)
Inductive HandlerEffect :=
| InfoLogged (msg : string) (clusterName : string)
| KeyErrorHandled (obj : Cluster) (err : error)
| QueueAdded (key : string).

Section Event_handlers.

(** [controllerutil.KeyFunc], of a package that is not among the sources. *)
Variable KeyFunc : Cluster → string * option error.

Definition enqueue (obj : Cluster) : list HandlerEffect :=
  let '(key, err) := KeyFunc obj in
  match err with
  | Some err => [KeyErrorHandled obj err]
  | None => [QueueAdded key]
  end.

Definition addCluster (cluster : Cluster) : list HandlerEffect :=
  InfoLogged "Adding cluster" (Name cluster) :: enqueue cluster.

Definition updateCluster (oldCluster cluster : Cluster) : list HandlerEffect :=
  if negb (needsUpdate oldCluster cluster) then []
  else InfoLogged "Updating cluster" (Name cluster) :: enqueue cluster.

End Event_handlers.

(** ** The worker loop *)

Section Worker.

Context {S : Type}.
Variable c : Controller S.
Variable pkg : Imports S.

(** [for c.processNextWorkItem() {}], at most [rounds] turns. *)
Fixpoint worker (rounds fuel : nat) : M S (fueled ()) :=
  match rounds with
  | O => mret OutOfFuel
  | Datatypes.S rounds =>
      r ← processNextWorkItem c pkg fuel;
      match r with
      | Returns true => worker rounds fuel
      | Returns false => mret (Returns tt)
      | OutOfFuel => mret OutOfFuel
      end
  end.

End Worker.

(** ** Kinds of events *)

(** What the reconciler's side may do: log, report an error, read the
    cache, read and write credentials and clusters with List, Create, Get
    and Update, build a wrapper, call a provider, call the deleter. *)
Definition reconciler_event (e : Event) : bool :=
  match e with
  | LogInfo _ | HandleError _ | ListerGet _
  | CredentialsList _ | CredentialsCreate _ | CredentialsGet _
  | CredentialsUpdate _ | ClustersUpdate _
  | GetClusterWrapper _ | ProviderOnCreate _ | ProviderOnUpdate _
  | DeleterDelete _ => true
  | _ => false
  end.

(** What the health monitor's side may do: log, read the cache, build a
    client set, ask for the version, send a strategic-merge patch. *)
Definition health_event (e : Event) : bool :=
  match e with
  | LogInfo _ | LogError _ _ | ListerGet _
  | BuildClientSet _ | DiscoveryServerVersion
  | ClustersPatch _ StrategicMergePatchType _ => true
  | _ => false
  end.

Definition queue_event (e : Event) : bool :=
  match e with
  | QueueGet | QueueForget _ | QueueAddRateLimited _ | QueueDone _ => true
  | _ => false
  end.

(** Running [m] only appends events of kind [P] to the trace. *)
Definition adds_only {S A} (P : Event → bool) (m : M S A) : Prop :=
  ∀ w, ∃ added, trace (snd (m w)) = trace w ++ added ∧ forallb P added = true.

(** Running [m] leaves the set of health-checked keys alone. *)
Definition keeps_healthCache {S A} (m : M S A) : Prop :=
  ∀ w, healthCache (snd (m w)) = healthCache w.

(** The cluster but for its credential reference. *)
Definition same_but_ref (a b : Cluster) : Prop :=
  Name a = Name b
  ∧ Type_ (Spec a) = Type_ (Spec b)
  ∧ TenantID (Spec a) = TenantID (Spec b)
  ∧ Status a = Status b.

Definition count_events (P : Event → bool) (t : list Event) : nat :=
  length (List.filter P t).

Definition is_QueueGet (e : Event) : bool :=
  match e with QueueGet => true | _ => false end.
Definition is_QueueDone (e : Event) : bool :=
  match e with QueueDone _ => true | _ => false end.
Definition is_QueueForget (e : Event) : bool :=
  match e with QueueForget _ => true | _ => false end.
Definition is_QueueAddRateLimited (e : Event) : bool :=
  match e with QueueAddRateLimited _ => true | _ => false end.

(** More scenarios on the in-memory control plane. *)
Module Scenario.

(** Cluster-scoped objects: the key is the name. *)
Definition KeyFunc (obj : Cluster) : string * option error := (Name obj, None).

Definition brokenKeyFunc (obj : Cluster) : string * option error :=
  ("", Some (errorString "object has no meta")).

Definition terminating_c1 : Cluster :=
  Fake.cluster "c1" "Finishing" "Terminating" (Some "cc-c1").

Definition upgrading_c1 : Cluster :=
  Fake.cluster "c1" "Finishing" "Upgrading" (Some "cc-c1").

Definition unknown_type_c1 : Cluster :=
  Fake.cluster "c1" "Nowhere" "Initializing" (Some "cc-c1").


Definition failing_running_c1 : Cluster :=
  Fake.cluster "c1" "Failing" "Running" (Some "cc-c1").

Definition fresh_wrapper : ClusterWrapper :=
  {| WCluster := Fake.pending_c1; WClusterCredential := Fake.cc_c1 |}.

(** An imports table that cannot build wrappers. *)
Definition no_wrapper_imports : Imports Fake.Store :=
  {| GetProvider := GetProvider Fake.imports;
     GetCluster := λ _ s, (inr (errorString "credential unreadable"), s);
     BuildExternalClientSet := BuildExternalClientSet Fake.imports;
     GetPatchBytes := GetPatchBytes Fake.imports |}.

(** A controller whose credential List is refused. *)
Definition list_down_controller : Controller Fake.Store :=
  {| queue_Get := queue_Get Fake.controller;
     lister_Get := lister_Get Fake.controller;
     platformClient :=
       {| ClusterCredentials :=
            {| Create := Create Fake.fake_credentials;
               CredGet := CredGet Fake.fake_credentials;
               List := λ _ s, (inr Fake.connRefused, s);
               CredUpdate := CredUpdate Fake.fake_credentials |};
          Clusters := Fake.fake_clusters |};
     deleter_Delete := deleter_Delete Fake.controller |}.

(** Iterations the finishing provider still needs. *)
Definition steps_left (wrapper : ClusterWrapper) (s : Fake.Store) : nat :=
  if String.eqb (Phase (Status (WCluster wrapper))) ClusterInitializing then 1 else 0.

End Scenario.

(** * Properties *)

(** ** Deep equality decides equality of the model values *)

Section DeepEqual.

Lemma eq_string_iff a b : reflect.eq_string a b = true ↔ a = b.
Proof. apply String.eqb_eq. Qed.

Lemma eq_ptr_iff {A} (eqA : A → A → bool) :
  (∀ a b, eqA a b = true ↔ a = b) →
  ∀ p q, reflect.eq_ptr eqA p q = true ↔ p = q.
Proof.
  intros HA [a|] [b|]; simpl; try (split; congruence).
  rewrite HA. split; congruence.
Qed.

Lemma eq_list_iff {A} (eqA : A → A → bool) :
  (∀ a b, eqA a b = true ↔ a = b) →
  ∀ l k, reflect.eq_list eqA l k = true ↔ l = k.
Proof.
  intros HA l. induction l as [|a l IH]; intros [|b k]; simpl;
    try (split; congruence).
  rewrite andb_true_iff, HA, IH. split.
  - intros [-> ->]; reflexivity.
  - intros [= -> ->]; auto.
Qed.

Lemma eq_slice_iff {A} (eqA : A → A → bool) :
  (∀ a b, eqA a b = true ↔ a = b) →
  ∀ s t, reflect.eq_slice eqA s t = true ↔ s = t.
Proof.
  intros HA [|l] [|k]; simpl; try (split; congruence).
  rewrite (eq_list_iff eqA HA). split; congruence.
Qed.

Lemma eq_LocalObjectReference_iff a b :
  reflect.eq_LocalObjectReference a b = true ↔ a = b.
Proof.
  unfold reflect.eq_LocalObjectReference. rewrite eq_string_iff.
  destruct a, b; simpl. split; congruence.
Qed.

Lemma eq_ClusterCondition_iff a b :
  reflect.eq_ClusterCondition a b = true ↔ a = b.
Proof.
  unfold reflect.eq_ClusterCondition.
  rewrite !andb_true_iff, !eq_string_iff.
  destruct a, b; simpl. split.
  - intros [[[-> ->] ->] ->]; reflexivity.
  - intros [= -> -> -> ->]; auto.
Qed.

Lemma DeepEqual_ClusterSpec_iff a b :
  reflect.DeepEqual_ClusterSpec a b = true ↔ a = b.
Proof.
  unfold reflect.DeepEqual_ClusterSpec.
  rewrite !andb_true_iff, !eq_string_iff,
    (eq_ptr_iff _ eq_LocalObjectReference_iff).
  destruct a, b; simpl. split.
  - intros [[-> ->] ->]; reflexivity.
  - intros [= -> -> ->]; auto.
Qed.

Lemma DeepEqual_ClusterStatus_iff a b :
  reflect.DeepEqual_ClusterStatus a b = true ↔ a = b.
Proof.
  unfold reflect.DeepEqual_ClusterStatus.
  rewrite !andb_true_iff, !eq_string_iff,
    (eq_slice_iff _ eq_ClusterCondition_iff).
  destruct a, b; simpl. split.
  - intros [[-> ->] ->]; reflexivity.
  - intros [= -> -> ->]; auto.
Qed.

Lemma DeepEqual_ClusterSpec_false a b :
  reflect.DeepEqual_ClusterSpec a b = false ↔ a ≠ b.
Proof.
  rewrite <- DeepEqual_ClusterSpec_iff.
  destruct (reflect.DeepEqual_ClusterSpec a b); split; congruence.
Qed.

Lemma DeepEqual_ClusterStatus_false a b :
  reflect.DeepEqual_ClusterStatus a b = false ↔ a ≠ b.
Proof.
  rewrite <- DeepEqual_ClusterStatus_iff.
  destruct (reflect.DeepEqual_ClusterStatus a b); split; congruence.
Qed.

(** A nil slice and an empty slice are not deeply equal. *)
Example DeepEqual_nil_vs_empty :
  reflect.eq_slice reflect.eq_ClusterCondition SliceNil (SliceOf []) = false.
Proof. reflexivity. Qed.

End DeepEqual.

(** ** The event filter *)

(** C8: [needsUpdate old new] is true exactly when the two specs are not
    deeply equal or the two statuses are not deeply equal (deep equality
    being equality of the values); in particular [needsUpdate x x] is
    false for every cluster [x]. *)
Theorem needsUpdate_iff_spec_or_status_differ :
  (∀ old new : Cluster,
      needsUpdate old new = true ↔
      (reflect.DeepEqual_ClusterSpec (Spec old) (Spec new) = false
       ∨ reflect.DeepEqual_ClusterStatus (Status old) (Status new) = false))
  ∧ (∀ old new : Cluster,
      needsUpdate old new = true ↔
      (Spec old ≠ Spec new ∨ Status old ≠ Status new))
  ∧ (∀ x : Cluster, needsUpdate x x = false).
Proof.
  assert (Hbool : ∀ old new : Cluster,
      needsUpdate old new = true ↔
      (reflect.DeepEqual_ClusterSpec (Spec old) (Spec new) = false
       ∨ reflect.DeepEqual_ClusterStatus (Status old) (Status new) = false)).
  { intros old new. unfold needsUpdate.
    destruct (reflect.DeepEqual_ClusterSpec (Spec old) (Spec new)),
      (reflect.DeepEqual_ClusterStatus (Status old) (Status new)); simpl;
      intuition congruence. }
  split; [exact Hbool|]. split.
  - intros old new.
    rewrite Hbool, DeepEqual_ClusterSpec_false, DeepEqual_ClusterStatus_false.
    reflexivity.
  - intros x. destruct (needsUpdate x x) eqn:E; [|reflexivity].
    apply Hbool in E.
    rewrite DeepEqual_ClusterSpec_false, DeepEqual_ClusterStatus_false in E.
    destruct E as [E|E]; contradiction E; reflexivity.
Qed.

(** ** Running monadic code *)

(** Unfold the monad and replace each collaborator call by the answer
    recorded in the context. *)
Ltac answer :=
  match goal with
  | H : ?f (ext _) = _ |- _ => rewrite H
  | H : ?f ?s = (_, _) |- context [?f ?s] => rewrite H
  end.

Ltac run :=
  unfold credentials, clusters in *;
  unfold mbind, M_bind, mret, M_ret, call, query, emit, when, healthCache_Remove;
  repeat (cbn beta iota zeta delta [ext trace healthCache fst snd negb andb orb notNil result_err];
          try answer).

Lemma trace_app2 {A} (l : list A) (a b : A) :
  ((l ++ [a]) ++ [b] = l ++ [a; b])%list.
Proof. rewrite <- app_assoc. reflexivity. Qed.

Lemma trace_app3 {A} (l : list A) (a b d : A) :
  (((l ++ [a]) ++ [b]) ++ [d] = l ++ [a; b; d])%list.
Proof. rewrite <- !app_assoc. reflexivity. Qed.

(** ** Legacy credential sync *)

Section Credentials.

Context {S : Type}.
Variable c : Controller S.

Lemma ensureSyncOldClusterCredential_bypass (cluster : Cluster) (w : World S) :
  ClusterCredentialRef (Spec cluster) ≠ None →
  ensureSyncOldClusterCredential c cluster w = ((cluster, None), w).
Proof.
  intros Href. unfold ensureSyncOldClusterCredential.
  destruct (ClusterCredentialRef (Spec cluster)); [reflexivity | congruence].
Qed.

Lemma ensureSyncOldClusterCredential_empty (cluster : Cluster) (w : World S) s' :
  ClusterCredentialRef (Spec cluster) = None →
  List (credentials c) (fields.OneTermEqualSelector "clusterName" (Name cluster)) (ext w)
    = (inl [], s') →
  ensureSyncOldClusterCredential c cluster w =
    ((cluster,
      if String.eqb (Type_ (Spec cluster)) "Imported"
      then Some (errors_New "waiting create ClusterCredential") else None),
     {| ext := s';
        trace := trace w ++ [CredentialsList
                   (fields.OneTermEqualSelector "clusterName" (Name cluster))];
        healthCache := healthCache w |}).
Proof.
  intros Href Hlist. unfold ensureSyncOldClusterCredential. rewrite Href.
  run. destruct (String.eqb _ "Imported"); reflexivity.
Qed.

Lemma ensureSyncOldClusterCredential_found
    (cluster : Cluster) (w : World S) credential rest s' err s'' :
  ClusterCredentialRef (Spec cluster) = None →
  List (credentials c) (fields.OneTermEqualSelector "clusterName" (Name cluster)) (ext w)
    = (inl (credential :: rest), s') →
  Update (clusters c)
    (set_ClusterCredentialRef (Some {| RefName := CredName credential |}) cluster) s'
    = (err, s'') →
  ensureSyncOldClusterCredential c cluster w =
    ((set_ClusterCredentialRef (Some {| RefName := CredName credential |}) cluster, err),
     {| ext := s'';
        trace := trace w ++
          [CredentialsList (fields.OneTermEqualSelector "clusterName" (Name cluster));
           ClustersUpdate
             (set_ClusterCredentialRef (Some {| RefName := CredName credential |}) cluster)];
        healthCache := healthCache w |}).
Proof.
  intros Href Hlist Hupd. unfold ensureSyncOldClusterCredential. rewrite Href.
  run. rewrite trace_app2. destruct err; reflexivity.
Qed.

End Credentials.

Section Legacy_sync.

Context {S : Type}.
Variable c : Controller S.

(** C4: with a nil [Spec.ClusterCredentialRef] the function lists the
    credentials by the field selector built from "clusterName" and the
    cluster's name; an empty list for an "Imported" cluster yields the
    error "waiting create ClusterCredential"; a non-empty list puts the
    first item's name into the reference and persists the cluster with
    Update, whose error is the result; with the reference set it returns
    nil at once and calls nothing. *)
Theorem ensureSyncOldClusterCredential_spec (cluster : Cluster) (w : World S) :
  let selector := fields.OneTermEqualSelector "clusterName" (Name cluster) in
  (∀ s',
      ClusterCredentialRef (Spec cluster) = None →
      List (credentials c) selector (ext w) = (inl [], s') →
      Type_ (Spec cluster) = "Imported" →
      ensureSyncOldClusterCredential c cluster w =
        ((cluster, Some (errorString "waiting create ClusterCredential")),
         {| ext := s'; trace := trace w ++ [CredentialsList selector];
            healthCache := healthCache w |}))
  ∧ (∀ credential rest s' err s'',
      ClusterCredentialRef (Spec cluster) = None →
      List (credentials c) selector (ext w) = (inl (credential :: rest), s') →
      Update (clusters c)
        (set_ClusterCredentialRef (Some {| RefName := CredName credential |}) cluster) s'
        = (err, s'') →
      ensureSyncOldClusterCredential c cluster w =
        ((set_ClusterCredentialRef (Some {| RefName := CredName credential |}) cluster,
          err),
         {| ext := s'';
            trace := trace w ++
              [CredentialsList selector;
               ClustersUpdate
                 (set_ClusterCredentialRef
                    (Some {| RefName := CredName credential |}) cluster)];
            healthCache := healthCache w |}))
  ∧ (ClusterCredentialRef (Spec cluster) ≠ None →
      ensureSyncOldClusterCredential c cluster w = ((cluster, None), w)).
Proof.
  intros selector. split; [|split].
  - intros s' Href Hlist Hty.
    rewrite (ensureSyncOldClusterCredential_empty c cluster w s' Href Hlist).
    rewrite Hty. reflexivity.
  - intros credential rest s' err s'' Href Hlist Hupd.
    exact (ensureSyncOldClusterCredential_found c cluster w _ _ _ _ _ Href Hlist Hupd).
  - apply ensureSyncOldClusterCredential_bypass.
Qed.

(** C10: with a nil reference, a type other than "Imported" and an empty
    credential list, the function returns nil and hands back the cluster
    unchanged, its reference still nil; the List is its only call, so no
    Update is issued. *)
Theorem ensureSyncOldClusterCredential_nothing_to_sync
    (cluster : Cluster) (w : World S) (s' : S) :
  ClusterCredentialRef (Spec cluster) = None →
  Type_ (Spec cluster) ≠ "Imported" →
  List (credentials c) (fields.OneTermEqualSelector "clusterName" (Name cluster)) (ext w)
    = (inl [], s') →
  ensureSyncOldClusterCredential c cluster w =
    ((cluster, None),
     {| ext := s';
        trace := trace w ++
          [CredentialsList (fields.OneTermEqualSelector "clusterName" (Name cluster))];
        healthCache := healthCache w |})
  ∧ ClusterCredentialRef (Spec (fst (fst (ensureSyncOldClusterCredential c cluster w))))
    = None
  ∧ filter (λ e, is_update_call e = true)
      (trace (snd (ensureSyncOldClusterCredential c cluster w)))
    = filter (λ e, is_update_call e = true) (trace w).
Proof.
  intros Href Hty Hlist.
  rewrite (ensureSyncOldClusterCredential_empty c cluster w s' Href Hlist).
  apply String.eqb_neq in Hty. rewrite Hty. simpl.
  split; [reflexivity|]. split; [exact Href|].
  rewrite filter_app. simpl. apply app_nil_r.
Qed.

End Legacy_sync.

(** The three cases of C4 on the in-memory control plane: an Imported
    cluster without credential, a cluster with an unreferenced credential,
    and a cluster whose reference is set. *)
Lemma ensureSyncOldClusterCredential_spec_witness :
  snd (fst (ensureSyncOldClusterCredential Fake.controller Fake.imported_c1
              (Fake.world (Fake.store [] [Fake.imported_c1] []))))
    = Some (errorString "waiting create ClusterCredential")
  ∧ ClusterCredentialRef (Spec (fst (fst
      (ensureSyncOldClusterCredential Fake.controller Fake.legacy_c1
         (Fake.world (Fake.store [] [Fake.legacy_c1] [Fake.cc_c1]))))))
    = Some {| RefName := "cc-c1" |}
  ∧ trace (snd (ensureSyncOldClusterCredential Fake.controller Fake.linked_c1
                  (Fake.world (Fake.store [] [Fake.linked_c1] [Fake.cc_c1]))))
    = []
  ∧ trace (snd (ensureSyncOldClusterCredential Fake.controller Fake.imported_c1
                  (Fake.world (Fake.store [] [Fake.imported_c1] []))))
    = [CredentialsList "clusterName=c1"].
Proof.
  split; [|split; [|split]].
  - destruct (ensureSyncOldClusterCredential_spec Fake.controller Fake.imported_c1
                (Fake.world (Fake.store [] [Fake.imported_c1] []))) as (H & _ & _).
    rewrite (H (Fake.store [] [Fake.imported_c1] []) eq_refl eq_refl eq_refl).
    reflexivity.
  - destruct (ensureSyncOldClusterCredential_spec Fake.controller Fake.legacy_c1
                (Fake.world (Fake.store [] [Fake.legacy_c1] [Fake.cc_c1])))
      as (_ & H & _).
    rewrite (H Fake.cc_c1 [] (Fake.store [] [Fake.legacy_c1] [Fake.cc_c1]) None
               (Fake.store [] [Fake.linked_c1] [Fake.cc_c1])
               eq_refl eq_refl eq_refl).
    reflexivity.
  - destruct (ensureSyncOldClusterCredential_spec Fake.controller Fake.linked_c1
                (Fake.world (Fake.store [] [Fake.linked_c1] [Fake.cc_c1])))
      as (_ & _ & H).
    rewrite H; [reflexivity | discriminate].
  - destruct (ensureSyncOldClusterCredential_spec Fake.controller Fake.imported_c1
                (Fake.world (Fake.store [] [Fake.imported_c1] []))) as (H & _ & _).
    rewrite (H (Fake.store [] [Fake.imported_c1] []) eq_refl eq_refl eq_refl).
    reflexivity.
Defined.

Lemma ensureSyncOldClusterCredential_nothing_to_sync_witness :
  ensureSyncOldClusterCredential Fake.controller Fake.fresh_c1
    (Fake.world (Fake.store [] [Fake.fresh_c1] []))
  = ((Fake.fresh_c1, None),
     {| ext := Fake.store [] [Fake.fresh_c1] [];
        trace := [CredentialsList "clusterName=c1"];
        healthCache := ∅ |}).
Proof.
  apply (ensureSyncOldClusterCredential_nothing_to_sync Fake.controller Fake.fresh_c1
           (Fake.world (Fake.store [] [Fake.fresh_c1] []))
           (Fake.store [] [Fake.fresh_c1] [])).
  - reflexivity.
  - vm_compute. discriminate.
  - reflexivity.
Defined.

(** ** Credential creation and repair *)

Section Ensure_credential.

Context {S : Type}.
Variable c : Controller S.

Lemma tolerated_error (err : option error) :
  err = None ∨ apierrors.IsAlreadyExists err = true →
  notNil err && negb (apierrors.IsAlreadyExists err) = false.
Proof.
  intros [-> | ->]; [reflexivity|]. apply andb_false_r.
Qed.

Lemma ensureClusterCredential_imported (cluster : Cluster) (w : World S) :
  ClusterCredentialRef (Spec cluster) = None →
  Type_ (Spec cluster) = "Imported" →
  ensureClusterCredential c cluster w = ((cluster, None), w).
Proof.
  intros Href Hty. unfold ensureClusterCredential. rewrite Href, Hty. reflexivity.
Qed.

Lemma ensureClusterCredential_create_fails
    (cluster : Cluster) (w : World S) credential e s' :
  ClusterCredentialRef (Spec cluster) = None →
  Type_ (Spec cluster) ≠ "Imported" →
  Create (credentials c) (fresh_credential cluster) (ext w) = ((credential, Some e), s') →
  apierrors.IsAlreadyExists (Some e) = false →
  ensureClusterCredential c cluster w =
    ((cluster, Some e),
     {| ext := s'; trace := trace w ++ [CredentialsCreate (fresh_credential cluster)];
        healthCache := healthCache w |}).
Proof.
  intros Href Hty Hcreate Hother. unfold ensureClusterCredential, fresh_credential in *.
  apply String.eqb_neq in Hty. rewrite Href, Hty. run.
  rewrite Hother. reflexivity.
Qed.

Lemma ensureClusterCredential_create
    (cluster : Cluster) (w : World S) credential err s' uerr s'' :
  ClusterCredentialRef (Spec cluster) = None →
  Type_ (Spec cluster) ≠ "Imported" →
  Create (credentials c) (fresh_credential cluster) (ext w) = ((credential, err), s') →
  err = None ∨ apierrors.IsAlreadyExists err = true →
  Update (clusters c)
    (set_ClusterCredentialRef (Some {| RefName := CredName credential |}) cluster) s'
    = (uerr, s'') →
  ensureClusterCredential c cluster w =
    ((set_ClusterCredentialRef (Some {| RefName := CredName credential |}) cluster, uerr),
     {| ext := s'';
        trace := trace w ++
          [CredentialsCreate (fresh_credential cluster);
           ClustersUpdate
             (set_ClusterCredentialRef
                (Some {| RefName := CredName credential |}) cluster)];
        healthCache := healthCache w |}).
Proof.
  intros Href Hty Hcreate Htol Hupd. unfold ensureClusterCredential, fresh_credential in *.
  apply String.eqb_neq in Hty. rewrite Href, Hty. run.
  rewrite (tolerated_error err Htol). run.
  rewrite trace_app2. destruct uerr; reflexivity.
Qed.

Lemma ensureClusterCredential_in_sync
    (cluster : Cluster) (w : World S) ref credential s' :
  ClusterCredentialRef (Spec cluster) = Some ref →
  CredGet (credentials c) (RefName ref) (ext w) = (inl credential, s') →
  ClusterName credential = Name cluster →
  ensureClusterCredential c cluster w =
    ((cluster, None),
     {| ext := s'; trace := trace w ++ [CredentialsGet (RefName ref)];
        healthCache := healthCache w |}).
Proof.
  intros Href Hget Hsame. unfold ensureClusterCredential. rewrite Href. run.
  rewrite Hsame, String.eqb_refl. reflexivity.
Qed.

Lemma ensureClusterCredential_repair
    (cluster : Cluster) (w : World S) ref credential s' uerr s'' :
  ClusterCredentialRef (Spec cluster) = Some ref →
  CredGet (credentials c) (RefName ref) (ext w) = (inl credential, s') →
  ClusterName credential ≠ Name cluster →
  CredUpdate (credentials c) (set_ClusterName (Name cluster) credential) s'
    = (uerr, s'') →
  ensureClusterCredential c cluster w =
    ((cluster, uerr),
     {| ext := s'';
        trace := trace w ++
          [CredentialsGet (RefName ref);
           CredentialsUpdate (set_ClusterName (Name cluster) credential)];
        healthCache := healthCache w |}).
Proof.
  intros Href Hget Hdiff Hupd. unfold ensureClusterCredential. rewrite Href. run.
  apply String.eqb_neq in Hdiff. rewrite Hdiff. run.
  rewrite trace_app2. destruct uerr; reflexivity.
Qed.

(** The paths of [ensureClusterCredential] in terms of what the client
    answers: with a nil reference and a type other than "Imported", the function
    creates a credential carrying the cluster's TenantID and name; when
    Create reports no error or AlreadyExists it goes on, puts the name of
    the credential Create handed back into the reference and persists the
    cluster with Update.  With the reference set, it Gets the credential
    and issues an Update of it, with ClusterName set to the cluster's name,
    exactly when the two names differ. *)
Theorem ensureClusterCredential_spec (cluster : Cluster) (w : World S) :
  (∀ credential err s' uerr s'',
      ClusterCredentialRef (Spec cluster) = None →
      Type_ (Spec cluster) ≠ "Imported" →
      Create (credentials c)
        {| CredName := ""; CredTenantID := TenantID (Spec cluster);
           ClusterName := Name cluster |} (ext w) = ((credential, err), s') →
      err = None ∨ apierrors.IsAlreadyExists err = true →
      Update (clusters c)
        (set_ClusterCredentialRef (Some {| RefName := CredName credential |}) cluster) s'
        = (uerr, s'') →
      let cluster' :=
        set_ClusterCredentialRef (Some {| RefName := CredName credential |}) cluster in
      ensureClusterCredential c cluster w =
        ((cluster', uerr),
         {| ext := s'';
            trace := trace w ++
              [CredentialsCreate
                 {| CredName := ""; CredTenantID := TenantID (Spec cluster);
                    ClusterName := Name cluster |};
               ClustersUpdate cluster'];
            healthCache := healthCache w |}))
  ∧ (∀ ref credential s',
      ClusterCredentialRef (Spec cluster) = Some ref →
      CredGet (credentials c) (RefName ref) (ext w) = (inl credential, s') →
      (ClusterName credential = Name cluster →
       ensureClusterCredential c cluster w =
         ((cluster, None),
          {| ext := s'; trace := trace w ++ [CredentialsGet (RefName ref)];
             healthCache := healthCache w |}))
      ∧ (ClusterName credential ≠ Name cluster →
         ∀ uerr s'',
           CredUpdate (credentials c) (set_ClusterName (Name cluster) credential) s'
             = (uerr, s'') →
           ensureClusterCredential c cluster w =
             ((cluster, uerr),
              {| ext := s'';
                 trace := trace w ++
                   [CredentialsGet (RefName ref);
                    CredentialsUpdate (set_ClusterName (Name cluster) credential)];
                 healthCache := healthCache w |}))).
Proof.
  split.
  - intros credential err s' uerr s'' Href Hty Hcreate Htol Hupd cluster'.
    exact (ensureClusterCredential_create cluster w _ _ _ _ _ Href Hty Hcreate Htol Hupd).
  - intros ref credential s' Href Hget. split.
    + apply (ensureClusterCredential_in_sync cluster w ref credential s' Href Hget).
    + intros Hdiff uerr s'' Hupd.
      exact (ensureClusterCredential_repair cluster w _ _ _ _ _ Href Hget Hdiff Hupd).
Qed.

End Ensure_credential.

(** On the in-memory control plane: a fresh cluster gets a credential
    and a reference to it; a referenced credential with the right name is
    only read; one with a stale name is repaired. *)
Lemma ensureClusterCredential_spec_witness :
  ensureClusterCredential Fake.controller Fake.fresh_c1
    (Fake.world (Fake.store [] [Fake.fresh_c1] []))
  = ((Fake.pending_c1, None),
     {| ext := Fake.store [] [Fake.pending_c1] [Fake.cc_c1];
        trace := [CredentialsCreate (fresh_credential Fake.fresh_c1);
                  ClustersUpdate Fake.pending_c1];
        healthCache := ∅ |})
  ∧ trace (snd (ensureClusterCredential Fake.controller Fake.linked_c1
                  (Fake.world (Fake.store [] [Fake.linked_c1] [Fake.cc_c1]))))
    = [CredentialsGet "cc-c1"]
  ∧ trace (snd (ensureClusterCredential Fake.controller Fake.linked_c1
                  (Fake.world (Fake.store [] [Fake.linked_c1] [Fake.cc_stale]))))
    = [CredentialsGet "cc-c1"; CredentialsUpdate Fake.cc_c1].
Proof.
  split; [|split].
  - destruct (ensureClusterCredential_spec Fake.controller Fake.fresh_c1
                (Fake.world (Fake.store [] [Fake.fresh_c1] []))) as [H _].
    apply (H Fake.cc_c1 None (Fake.store [] [Fake.fresh_c1] [Fake.cc_c1]) None
             (Fake.store [] [Fake.pending_c1] [Fake.cc_c1])).
    + reflexivity.
    + vm_compute. discriminate.
    + reflexivity.
    + left. reflexivity.
    + reflexivity.
  - destruct (ensureClusterCredential_spec Fake.controller Fake.linked_c1
                (Fake.world (Fake.store [] [Fake.linked_c1] [Fake.cc_c1]))) as [_ H].
    destruct (H {| RefName := "cc-c1" |} Fake.cc_c1
                (Fake.store [] [Fake.linked_c1] [Fake.cc_c1]) eq_refl eq_refl)
      as [Hsame _].
    rewrite (Hsame eq_refl). reflexivity.
  - destruct (ensureClusterCredential_spec Fake.controller Fake.linked_c1
                (Fake.world (Fake.store [] [Fake.linked_c1] [Fake.cc_stale]))) as [_ H].
    destruct (H {| RefName := "cc-c1" |} Fake.cc_stale
                (Fake.store [] [Fake.linked_c1] [Fake.cc_stale]) eq_refl eq_refl)
      as [_ Hdiff].
    rewrite (Hdiff ltac:(vm_compute; discriminate) None
               (Fake.store [] [Fake.linked_c1] [Fake.cc_c1]) eq_refl).
    reflexivity.
Defined.

(** Against a client that hands back an empty object next to an error, as
    the generated typed clients do, an AlreadyExists answer is tolerated and
    the reference receives that object's (empty) name. *)
Example ensureClusterCredential_already_exists :
  ensureClusterCredential Fake.controller Fake.fresh_c1
    (Fake.world (Fake.store [] [Fake.fresh_c1] [Fake.cc_c1]))
  = ((Fake.cluster "c1" "Finishing" "Initializing" (Some ""), None),
     {| ext := Fake.store [] [Fake.cluster "c1" "Finishing" "Initializing" (Some "")]
                 [Fake.cc_c1];
        trace := [CredentialsCreate (fresh_credential Fake.fresh_c1);
                  ClustersUpdate (Fake.cluster "c1" "Finishing" "Initializing" (Some ""))];
        healthCache := ∅ |}).
Proof. reflexivity. Qed.

Section Already_exists.

Context {S : Type}.
Variable c : Controller S.

(** C5 (as the code has it): the function is not idempotent against
    AlreadyExists.  [Create]'s result is assigned to the very variable whose
    name goes into the reference, and a typed client hands back an empty
    object next to an error; so when Create answers AlreadyExists the error
    is tolerated, but the reference is set to the empty name, not to the
    name of the credential that exists, and that cluster is persisted.  A
    second run then finds the reference set, Gets the credential named by
    the empty string and returns the error of that Get. *)
Theorem ensureClusterCredential_AlreadyExists_loses_the_name
    (cluster : Cluster) (w : World S) e s1 uerr s2 :
  ClusterCredentialRef (Spec cluster) = None →
  Type_ (Spec cluster) ≠ "Imported" →
  Create (credentials c)
    {| CredName := ""; CredTenantID := TenantID (Spec cluster);
       ClusterName := Name cluster |} (ext w)
    = (({| CredName := ""; CredTenantID := ""; ClusterName := "" |}, Some e), s1) →
  apierrors.IsAlreadyExists (Some e) = true →
  Update (clusters c) (set_ClusterCredentialRef (Some {| RefName := "" |}) cluster) s1
    = (uerr, s2) →
  ensureClusterCredential c cluster w =
    ((set_ClusterCredentialRef (Some {| RefName := "" |}) cluster, uerr),
     {| ext := s2;
        trace := trace w ++
          [CredentialsCreate
             {| CredName := ""; CredTenantID := TenantID (Spec cluster);
                ClusterName := Name cluster |};
           ClustersUpdate (set_ClusterCredentialRef (Some {| RefName := "" |}) cluster)];
        healthCache := healthCache w |})
  ∧ ∀ (w2 : World S) e2 s3,
      CredGet (credentials c) "" (ext w2) = (inr e2, s3) →
      ensureClusterCredential c
        (set_ClusterCredentialRef (Some {| RefName := "" |}) cluster) w2 =
        ((set_ClusterCredentialRef (Some {| RefName := "" |}) cluster, Some e2),
         {| ext := s3; trace := trace w2 ++ [CredentialsGet ""];
            healthCache := healthCache w2 |}).
Proof.
  intros Href Hty Hcreate Hexists Hupd. split.
  - exact (ensureClusterCredential_create c cluster w
             {| CredName := ""; CredTenantID := ""; ClusterName := "" |}
             (Some e) s1 uerr s2 Href Hty Hcreate (or_intror Hexists) Hupd).
  - intros w2 e2 s3 Hget. unfold ensureClusterCredential.
    cbn [set_ClusterCredentialRef Spec ClusterCredentialRef RefName]. run. reflexivity.
Qed.

End Already_exists.

(** C5 on the in-memory control plane: the credential cc-c1 of cluster c1
    exists already.  The first run persists the cluster with an empty
    reference; the second run fails on the Get of the empty name. *)
Lemma ensureClusterCredential_AlreadyExists_loses_the_name_witness :
  ensureClusterCredential Fake.controller Fake.fresh_c1
    (Fake.world (Fake.store [] [Fake.fresh_c1] [Fake.cc_c1]))
  = ((Fake.cluster "c1" "Finishing" "Initializing" (Some ""), None),
     {| ext := Fake.store [] [Fake.cluster "c1" "Finishing" "Initializing" (Some "")]
                 [Fake.cc_c1];
        trace := [CredentialsCreate (fresh_credential Fake.fresh_c1);
                  ClustersUpdate (Fake.cluster "c1" "Finishing" "Initializing" (Some ""))];
        healthCache := ∅ |})
  ∧ ensureClusterCredential Fake.controller
      (Fake.cluster "c1" "Finishing" "Initializing" (Some ""))
      (Fake.world (Fake.store [] [Fake.cluster "c1" "Finishing" "Initializing" (Some "")]
                     [Fake.cc_c1]))
    = ((Fake.cluster "c1" "Finishing" "Initializing" (Some ""),
        Some (Fake.notFound "")),
       {| ext := Fake.store [] [Fake.cluster "c1" "Finishing" "Initializing" (Some "")]
                   [Fake.cc_c1];
          trace := [CredentialsGet ""];
          healthCache := ∅ |}).
Proof.
  destruct (ensureClusterCredential_AlreadyExists_loses_the_name Fake.controller
              Fake.fresh_c1 (Fake.world (Fake.store [] [Fake.fresh_c1] [Fake.cc_c1]))
              (Fake.alreadyExists "cc-c1")
              (Fake.store [] [Fake.fresh_c1] [Fake.cc_c1])
              None
              (Fake.store [] [Fake.cluster "c1" "Finishing" "Initializing" (Some "")]
                 [Fake.cc_c1])
              eq_refl ltac:(vm_compute; discriminate) eq_refl eq_refl eq_refl)
    as [Hfirst Hsecond].
  split.
  - exact Hfirst.
  - exact (Hsecond
             (Fake.world (Fake.store []
                            [Fake.cluster "c1" "Finishing" "Initializing" (Some "")]
                            [Fake.cc_c1]))
             (Fake.notFound "")
             (Fake.store [] [Fake.cluster "c1" "Finishing" "Initializing" (Some "")]
                [Fake.cc_c1])
             eq_refl).
Defined.

(** ** Conditions *)

Section Conditions.

Lemma merge_condition_same newCondition x :
  CondType x = CondType newCondition → merge_condition newCondition x = newCondition.
Proof.
  intros H. unfold merge_condition. rewrite H, String.eqb_refl.
  destruct newCondition; reflexivity.
Qed.

Lemma merge_condition_other newCondition x :
  CondType x ≠ CondType newCondition → merge_condition newCondition x = x.
Proof.
  intros H. unfold merge_condition. apply String.eqb_neq in H. rewrite H. reflexivity.
Qed.

Lemma merge_condition_type newCondition x :
  CondType (merge_condition newCondition x) = CondType x.
Proof. unfold merge_condition. destruct (String.eqb _ _); reflexivity. Qed.

Lemma has_condition_true ty l :
  has_condition ty l = true ↔ ∃ x, x ∈ l ∧ CondType x = ty.
Proof.
  unfold has_condition. rewrite existsb_exists. split.
  - intros (x & Hin & Heq). exists x. rewrite list_elem_of_In, <- String.eqb_eq. auto.
  - intros (x & Hin & Heq). exists x. rewrite <- list_elem_of_In, String.eqb_eq. auto.
Qed.

Lemma elem_of_merged newCondition l x :
  x ∈ map (merge_condition newCondition) l ↔
  ∃ y, y ∈ l ∧ x = merge_condition newCondition y.
Proof.
  rewrite list_elem_of_In, in_map_iff. split.
  - intros (y & <- & Hin). exists y. rewrite list_elem_of_In. auto.
  - intros (y & Hin & ->). exists y. rewrite <- list_elem_of_In. auto.
Qed.

Lemma conditions_of_SetCondition newCondition c :
  conditions_of (SetCondition newCondition c) =
    if has_condition (CondType newCondition) (conditions_of c)
    then map (merge_condition newCondition) (conditions_of c)
    else map (merge_condition newCondition) (conditions_of c) ++ [newCondition].
Proof. reflexivity. Qed.

Lemma SetCondition_upserted newCondition c :
  upserted newCondition c (SetCondition newCondition c).
Proof.
  unfold upserted. rewrite conditions_of_SetCondition.
  destruct (has_condition (CondType newCondition) (conditions_of c)) eqn:Hhas.
  - apply has_condition_true in Hhas as (y & Hy & Hty). split; [|split].
    + apply elem_of_merged. exists y. split; [exact Hy|].
      symmetry. apply merge_condition_same, Hty.
    + intros x (z & Hz & ->)%elem_of_merged Hx.
      rewrite merge_condition_type in Hx. apply merge_condition_same, Hx.
    + intros x Hx. rewrite elem_of_merged. split.
      * intros (z & Hz & ->). rewrite merge_condition_type in Hx.
        rewrite (merge_condition_other _ _ Hx). exact Hz.
      * intros Hin. exists x. split; [exact Hin|].
        symmetry. apply merge_condition_other, Hx.
  - assert (Hnone : ∀ z, z ∈ conditions_of c → CondType z ≠ CondType newCondition).
    { intros z Hz Hty.
      assert (has_condition (CondType newCondition) (conditions_of c) = true)
        by (apply has_condition_true; eauto).
      congruence. }
    split; [|split].
    + apply elem_of_app. right. apply list_elem_of_singleton. reflexivity.
    + intros x [(z & Hz & ->)%elem_of_merged | ->%list_elem_of_singleton]%elem_of_app Hx;
        [|reflexivity].
      rewrite merge_condition_type in Hx. destruct (Hnone z Hz Hx).
    + intros x Hx. rewrite elem_of_app, elem_of_merged, list_elem_of_singleton. split.
      * intros [(z & Hz & ->) | ->]; [|congruence].
        rewrite (merge_condition_other _ _ (Hnone z Hz)). exact Hz.
      * intros Hin. left. exists x. split; [exact Hin|].
        symmetry. apply merge_condition_other, Hx.
Qed.

Lemma SetCondition_frame newCondition c :
  Name (SetCondition newCondition c) = Name c
  ∧ Spec (SetCondition newCondition c) = Spec c
  ∧ Phase (Status (SetCondition newCondition c)) = Phase (Status c)
  ∧ Version (Status (SetCondition newCondition c)) = Version (Status c).
Proof. repeat split. Qed.

End Conditions.

(** ** Health check *)

Section Health.

Context {S : Type}.
Variable c : Controller S.
Variable pkg : Imports S.

(** Whatever the probe finds, [checkHealth] ends the same way: it asks for
    the patch between the copy taken on entry and the edited cluster and,
    if there is one, sends it. *)
Lemma checkHealth_shape (cluster : Cluster) (w : World S) :
  ∃ cluster1 probes s1,
    (probes = [BuildClientSet cluster]
     ∨ probes = [BuildClientSet cluster; DiscoveryServerVersion])
    ∧ Name cluster1 = Name cluster
    ∧ checkHealth c pkg cluster w =
        match GetPatchBytes pkg cluster cluster1 with
        | inr err =>
            ((cluster1, Some (Errorf_w "GetPatchBytes error: " err)),
             {| ext := s1; trace := trace w ++ probes; healthCache := healthCache w |})
        | inl patchBytes =>
            let '(perr, s2) :=
              Patch (clusters c) (Name cluster) StrategicMergePatchType patchBytes s1 in
            ((cluster1,
              Errorf_w "update cluster health status error: " <$> perr),
             {| ext := s2;
                trace := trace w ++ probes ++
                  [ClustersPatch (Name cluster) StrategicMergePatchType patchBytes];
                healthCache := healthCache w |})
        end.
Proof.
  unfold checkHealth, DeepCopy. run.
  destruct (BuildExternalClientSet pkg cluster (ext w)) as [[client|e] s1] eqn:HB; run.
  - destruct (ServerVersion client s1) as [[v|e] s2] eqn:HV; run.
    + exists (SetCondition healthyCondition
                (set_Version (VersionInfo_String v) (set_Phase ClusterRunning cluster))),
        [BuildClientSet cluster; DiscoveryServerVersion], s2.
      split; [right; reflexivity|]. split; [reflexivity|].
      change (SetCondition (set_CondStatus ConditionTrue _) _)
        with (SetCondition healthyCondition
                (set_Version (VersionInfo_String v) (set_Phase ClusterRunning cluster))).
      destruct (GetPatchBytes pkg _ _) as [patchBytes|perr]; run.
      * destruct (Patch _ _ _ _ _) as [[perr|] sP]; rewrite trace_app3; reflexivity.
      * rewrite trace_app2. reflexivity.
    + exists (SetCondition (failedCondition e) (set_Phase ClusterFailed cluster)),
        [BuildClientSet cluster; DiscoveryServerVersion], s2.
      split; [right; reflexivity|]. split; [reflexivity|].
      change (SetCondition (set_Reason_Message _ _ _) _)
        with (SetCondition (failedCondition e) (set_Phase ClusterFailed cluster)).
      destruct (GetPatchBytes pkg _ _) as [patchBytes|perr]; run.
      * destruct (Patch _ _ _ _ _) as [[perr|] sP]; rewrite trace_app3; reflexivity.
      * rewrite trace_app2. reflexivity.
  - exists (SetCondition (failedCondition e) (set_Phase ClusterFailed cluster)),
      [BuildClientSet cluster], s1.
    split; [left; reflexivity|]. split; [reflexivity|].
    change (SetCondition (set_Reason_Message _ _ _) _)
      with (SetCondition (failedCondition e) (set_Phase ClusterFailed cluster)).
    destruct (GetPatchBytes pkg _ _) as [patchBytes|perr]; run.
    + destruct (Patch _ _ _ _ _) as [[perr|] sP]; rewrite trace_app2; reflexivity.
    + reflexivity.
Qed.

Lemma checkHealth_build_fails (cluster : Cluster) (w : World S) e s1 :
  BuildExternalClientSet pkg cluster (ext w) = (inr e, s1) →
  fst (fst (checkHealth c pkg cluster w)) =
    SetCondition (failedCondition e) (set_Phase ClusterFailed cluster).
Proof.
  intros HB. unfold checkHealth, DeepCopy. run.
  destruct (GetPatchBytes pkg _ _) as [patchBytes|perr]; run; [|reflexivity].
  destruct (Patch _ _ _ _ _) as [[perr|] sP]; reflexivity.
Qed.

Lemma checkHealth_version_fails (cluster : Cluster) (w : World S) client s1 e s2 :
  BuildExternalClientSet pkg cluster (ext w) = (inl client, s1) →
  ServerVersion client s1 = (inr e, s2) →
  fst (fst (checkHealth c pkg cluster w)) =
    SetCondition (failedCondition e) (set_Phase ClusterFailed cluster).
Proof.
  intros HB HV. unfold checkHealth, DeepCopy. run.
  destruct (GetPatchBytes pkg _ _) as [patchBytes|perr]; run; [|reflexivity].
  destruct (Patch _ _ _ _ _) as [[perr|] sP]; reflexivity.
Qed.

Lemma checkHealth_healthy (cluster : Cluster) (w : World S) client s1 v s2 :
  BuildExternalClientSet pkg cluster (ext w) = (inl client, s1) →
  ServerVersion client s1 = (inl v, s2) →
  fst (fst (checkHealth c pkg cluster w)) =
    SetCondition healthyCondition
      (set_Version (VersionInfo_String v) (set_Phase ClusterRunning cluster)).
Proof.
  intros HB HV. unfold checkHealth, DeepCopy. run.
  destruct (GetPatchBytes pkg _ _) as [patchBytes|perr]; run; [|reflexivity].
  destruct (Patch _ _ _ _ _) as [[perr|] sP]; reflexivity.
Qed.

Lemma checkHealth_healthCache (cluster : Cluster) (w : World S) :
  healthCache (snd (checkHealth c pkg cluster w)) = healthCache w.
Proof.
  destruct (checkHealth_shape cluster w) as (cluster1 & probes & s1 & _ & _ & ->).
  destruct (GetPatchBytes pkg _ _) as [patchBytes|perr]; [|reflexivity].
  destruct (Patch _ _ _ _ _) as [perr sP]; reflexivity.
Qed.

End Health.

Section Health_check.

Context {S : Type}.
Variable c : Controller S.
Variable pkg : Imports S.

Lemma api_calls_app (t u : list Event) : api_calls (t ++ u) = api_calls t ++ api_calls u.
Proof. apply List.filter_app. Qed.

Lemma update_calls_app (t u : list Event) :
  update_calls (t ++ u) = update_calls t ++ update_calls u.
Proof. apply List.filter_app. Qed.


End Health_check.


(** ** The health poll *)

Section Watch_health.

Context {S : Type}.
Variable c : Controller S.
Variable pkg : Imports S.

Lemma watchHealth_gone (key : string) (w : World S) err :
  lister_Get c key (ext w) = inr err →
  apierrors.IsNotFound (Some err) = true →
  watchHealth c pkg key w =
    ((true, None),
     {| ext := ext w;
        trace := trace w ++
          [ListerGet key; LogInfo "Stop health check because cluster has been deleted"];
        healthCache := healthCache w ∖ {[key]} |}).
Proof.
  intros Hget Hnf. unfold watchHealth. run. rewrite Hnf. run.
  rewrite trace_app2. reflexivity.
Qed.

Lemma watchHealth_lookup_error (key : string) (w : World S) err :
  lister_Get c key (ext w) = inr err →
  apierrors.IsNotFound (Some err) = false →
  watchHealth c pkg key w = ((false, None), after_lookup key w).
Proof.
  intros Hget Hnf. unfold watchHealth. run. rewrite Hnf. reflexivity.
Qed.

Lemma watchHealth_skip (key : string) (w : World S) cluster :
  lister_Get c key (ext w) = inl cluster →
  Phase (Status cluster) ≠ ClusterRunning →
  Phase (Status cluster) ≠ ClusterFailed →
  watchHealth c pkg key w = ((false, None), after_lookup key w).
Proof.
  intros Hget Hrun Hfail. unfold watchHealth. run.
  apply String.eqb_neq in Hrun, Hfail. rewrite Hrun, Hfail. reflexivity.
Qed.

Lemma watchHealth_check (key : string) (w : World S) cluster cluster' err w2 :
  lister_Get c key (ext w) = inl cluster →
  Phase (Status cluster) = ClusterRunning ∨ Phase (Status cluster) = ClusterFailed →
  checkHealth c pkg cluster (after_lookup key w) = ((cluster', err), w2) →
  watchHealth c pkg key w =
    ((false, None),
     {| ext := ext w2;
        trace := trace w2 ++
          match err with
          | Some e => [LogError e "Check health error"]
          | None => []
          end;
        healthCache := healthCache w |}).
Proof.
  intros Hget Hphase Hcheck. unfold watchHealth. run.
  assert (String.eqb (Phase (Status cluster)) ClusterRunning
          || String.eqb (Phase (Status cluster)) ClusterFailed = true) as ->.
  { destruct Hphase as [-> | ->]; reflexivity. }
  run. fold (after_lookup key w). rewrite Hcheck.
  pose proof (checkHealth_healthCache c pkg cluster (after_lookup key w)) as Hhc.
  rewrite Hcheck in Hhc. simpl in Hhc.
  destruct err; run.
  - rewrite Hhc. reflexivity.
  - rewrite app_nil_r, <- Hhc. destruct w2; reflexivity.
Qed.

(** C7: on a tick, a NotFound from the lister removes the key from
    [healthCache] and returns done = true; a cluster whose phase is neither
    Running nor Failed makes the tick return done = false having done
    nothing but the lookup; a Running or Failed cluster gets [checkHealth]
    run on it, and the tick returns done = false. *)
Theorem watchHealth_tick (key : string) (w : World S) :
  (∀ err,
      lister_Get c key (ext w) = inr err →
      apierrors.IsNotFound (Some err) = true →
      fst (watchHealth c pkg key w) = (true, None)
      ∧ healthCache (snd (watchHealth c pkg key w)) = healthCache w ∖ {[key]}
      ∧ key ∉ healthCache (snd (watchHealth c pkg key w)))
  ∧ (∀ cluster,
      lister_Get c key (ext w) = inl cluster →
      Phase (Status cluster) ≠ ClusterRunning →
      Phase (Status cluster) ≠ ClusterFailed →
      watchHealth c pkg key w =
        ((false, None),
         {| ext := ext w; trace := trace w ++ [ListerGet key];
            healthCache := healthCache w |}))
  ∧ (∀ cluster,
      lister_Get c key (ext w) = inl cluster →
      Phase (Status cluster) = ClusterRunning ∨ Phase (Status cluster) = ClusterFailed →
      let checked := checkHealth c pkg cluster (after_lookup key w) in
      fst (watchHealth c pkg key w) = (false, None)
      ∧ ext (snd (watchHealth c pkg key w)) = ext (snd checked)
      ∧ healthCache (snd (watchHealth c pkg key w)) = healthCache w
      ∧ trace (snd (watchHealth c pkg key w)) =
          trace (snd checked) ++
          match snd (fst checked) with
          | Some e => [LogError e "Check health error"]
          | None => []
          end).
Proof.
  split; [|split].
  - intros err Hget Hnf. rewrite (watchHealth_gone key w err Hget Hnf). simpl.
    split; [reflexivity|]. split; [reflexivity|].
    rewrite elem_of_difference, elem_of_singleton. tauto.
  - intros cluster Hget Hrun Hfail. apply (watchHealth_skip key w cluster Hget Hrun Hfail).
  - intros cluster Hget Hphase checked. subst checked.
    destruct (checkHealth c pkg cluster (after_lookup key w)) as [[cluster' err] w2] eqn:E.
    rewrite (watchHealth_check key w cluster cluster' err w2 Hget Hphase E).
    simpl. repeat split.
Qed.


End Watch_health.

(** C7 on the in-memory control plane: the cluster is gone; the cluster is
    still Initializing; the cluster is Running. *)
Lemma watchHealth_tick_witness :
  (fst (watchHealth Fake.controller Fake.imports "c1"
          (Fake.watching "c1" (Fake.store [] [] []))) = (true, None)
   ∧ "c1" ∉ healthCache (snd (watchHealth Fake.controller Fake.imports "c1"
                                (Fake.watching "c1" (Fake.store [] [] [])))))
  ∧ watchHealth Fake.controller Fake.imports "c1"
      (Fake.watching "c1" (Fake.store [] [Fake.pending_c1] [Fake.cc_c1]))
    = ((false, None),
       {| ext := Fake.store [] [Fake.pending_c1] [Fake.cc_c1];
          trace := [ListerGet "c1"]; healthCache := {["c1"]} |})
  ∧ (fst (watchHealth Fake.controller Fake.imports "c1"
            (Fake.watching "c1" (Fake.store [] [Fake.linked_c1] [Fake.cc_c1])))
       = (false, None)
     ∧ api_calls (trace (snd (watchHealth Fake.controller Fake.imports "c1"
            (Fake.watching "c1" (Fake.store [] [Fake.linked_c1] [Fake.cc_c1])))))
       = [ClustersPatch "c1" StrategicMergePatchType "{status:{phase:Running}}"]).
Proof.
  split; [|split].
  - destruct (watchHealth_tick Fake.controller Fake.imports "c1"
                (Fake.watching "c1" (Fake.store [] [] []))) as (H & _).
    destruct (H (Fake.notFound "c1") eq_refl eq_refl) as (Hdone & _ & Hout).
    exact (conj Hdone Hout).
  - destruct (watchHealth_tick Fake.controller Fake.imports "c1"
                (Fake.watching "c1" (Fake.store [] [Fake.pending_c1] [Fake.cc_c1])))
      as (_ & H & _).
    apply (H Fake.pending_c1 eq_refl); vm_compute; discriminate.
  - destruct (watchHealth_tick Fake.controller Fake.imports "c1"
                (Fake.watching "c1" (Fake.store [] [Fake.linked_c1] [Fake.cc_c1])))
      as (_ & _ & H).
    destruct (H Fake.linked_c1 eq_refl (or_introl eq_refl)) as (Hdone & _ & _ & Htrace).
    split; [exact Hdone|]. rewrite Htrace. reflexivity.
Defined.


(** ** The worker and a deleted cluster *)

Section Sync.

Context {S : Type}.
Variable c : Controller S.
Variable pkg : Imports S.

(** C1 (as the code has it): when the lister answers NotFound for the key's
    name, [syncCluster] logs "cluster has been deleted" and then falls into
    the generic error branch: it returns the NotFound error, not nil, and
    the worker re-adds the key with [AddRateLimited]; [Forget] is not
    called. *)
Theorem syncCluster_NotFound_is_requeued
    (fuel : nat) (key namespace name : string) (w : World S) (err : error) :
  cache.SplitMetaNamespaceKey key = (namespace, name, None) →
  apierrors.IsNotFound (Some err) = true →
  (lister_Get c name (ext w) = inr err →
   syncCluster c pkg fuel key w =
     (Returns (Some err),
      {| ext := ext w;
         trace := trace w ++
           [ListerGet name;
            LogInfo "cluster has been deleted";
            HandleError ("unable to retrieve cluster " +:+ key +:+ " from store: "
                         +:+ Error err);
            LogInfo "Finished syncing cluster"];
         healthCache := healthCache w |}))
  ∧ (∀ s1,
      queue_Get c (ext w) = ((key, false), s1) →
      lister_Get c name s1 = inr err →
      processNextWorkItem c pkg fuel w =
        (Returns true,
         {| ext := s1;
            trace := trace w ++
              [QueueGet;
               ListerGet name;
               LogInfo "cluster has been deleted";
               HandleError ("unable to retrieve cluster " +:+ key +:+ " from store: "
                            +:+ Error err);
               LogInfo "Finished syncing cluster";
               HandleError ("error processing cluster " +:+ key +:+ " (will retry): "
                            +:+ Error err);
               QueueAddRateLimited key;
               QueueDone key];
            healthCache := healthCache w |})).
Proof.
  intros Hkey Hnf. split.
  - intros Hget. unfold syncCluster, syncCluster_body. rewrite Hkey. run.
    rewrite Hnf. run. rewrite <- !app_assoc. reflexivity.
  - intros s1 Hq Hget. unfold processNextWorkItem, syncCluster, syncCluster_body.
    run. rewrite Hget. run. rewrite Hnf. run. rewrite <- !app_assoc. reflexivity.
Qed.

End Sync.

Lemma syncCluster_NotFound_is_requeued_witness :
  fst (syncCluster Fake.controller Fake.imports 1 "c1"
         (Fake.world (Fake.store ["c1"] [] [])))
    = Returns (Some (Fake.notFound "c1"))
  ∧ trace (snd (processNextWorkItem Fake.controller Fake.imports 1
                  (Fake.world (Fake.store ["c1"] [] []))))
    = [QueueGet;
       ListerGet "c1";
       LogInfo "cluster has been deleted";
       HandleError "unable to retrieve cluster c1 from store: c1 not found";
       LogInfo "Finished syncing cluster";
       HandleError "error processing cluster c1 (will retry): c1 not found";
       QueueAddRateLimited "c1";
       QueueDone "c1"].
Proof.
  split.
  - destruct (syncCluster_NotFound_is_requeued Fake.controller Fake.imports 1
                "c1" "" "c1" (Fake.world (Fake.store ["c1"] [] []))
                (Fake.notFound "c1") eq_refl eq_refl) as [H _].
    rewrite (H eq_refl). reflexivity.
  - destruct (syncCluster_NotFound_is_requeued Fake.controller Fake.imports 1
                "c1" "" "c1" (Fake.world (Fake.store ["c1"] [] []))
                (Fake.notFound "c1") eq_refl eq_refl) as [_ H].
    rewrite (H (Fake.store [] [] []) eq_refl eq_refl). reflexivity.
Defined.

(** ** The provisioning loop *)

Section Provisioning.

Context {S : Type}.
Variable c : Controller S.

(** The world after one iteration of the loop. *)
Lemma onCreate_loop_iteration
    (fuel : nat) (provider : Provider S) (wrapper : ClusterWrapper) (w : World S)
    wrapper' perr s1 cerr s2 uerr s3 :
  Phase (Status (WCluster wrapper)) = ClusterInitializing →
  OnCreate provider wrapper (ext w) = ((wrapper', perr), s1) →
  CredUpdate (credentials c) (WClusterCredential wrapper') s1 = (cerr, s2) →
  Update (clusters c) (WCluster wrapper') s2 = (uerr, s3) →
  onCreate_loop c (Datatypes.S fuel) provider wrapper w =
    match uerr with
    | Some e => mret (Returns (Some e))
    | None => onCreate_loop c fuel provider wrapper'
    end
      {| ext := s3;
         trace := trace w ++
           [ProviderOnCreate wrapper;
            CredentialsUpdate (WClusterCredential wrapper');
            ClustersUpdate (WCluster wrapper')];
         healthCache := healthCache w |}.
Proof.
  intros Hphase Hprov Hcred Hupd. cbn [onCreate_loop]. rewrite Hphase.
  change (String.eqb ClusterInitializing ClusterInitializing) with true.
  run. rewrite trace_app3. destruct uerr; reflexivity.
Qed.

Lemma onCreate_loop_done (fuel : nat) (provider : Provider S) wrapper (w : World S) :
  Phase (Status (WCluster wrapper)) ≠ ClusterInitializing →
  onCreate_loop c fuel provider wrapper w = (Returns None, w).
Proof.
  intros Hphase. apply String.eqb_neq in Hphase.
  destruct fuel; cbn [onCreate_loop]; rewrite Hphase; reflexivity.
Qed.

(** C2 (as the code has it): an iteration calls the provider, then Update
    on the wrapper's credential, then Update on the wrapper's cluster,
    whatever the earlier answers were; the error that decides the outcome
    is the one of the last Update alone.  When that Update succeeds and the
    provider has moved the phase on, [onCreate]'s loop returns nil even if
    the provider or the credential Update failed. *)
Theorem onCreate_loop_keeps_only_the_last_error
    (fuel : nat) (provider : Provider S) (wrapper : ClusterWrapper) (w : World S)
    wrapper' perr s1 cerr s2 s3 :
  Phase (Status (WCluster wrapper)) = ClusterInitializing →
  OnCreate provider wrapper (ext w) = ((wrapper', perr), s1) →
  CredUpdate (credentials c) (WClusterCredential wrapper') s1 = (cerr, s2) →
  Update (clusters c) (WCluster wrapper') s2 = (None, s3) →
  Phase (Status (WCluster wrapper')) ≠ ClusterInitializing →
  onCreate_loop c (Datatypes.S fuel) provider wrapper w =
    (Returns None,
     {| ext := s3;
        trace := trace w ++
          [ProviderOnCreate wrapper;
           CredentialsUpdate (WClusterCredential wrapper');
           ClustersUpdate (WCluster wrapper')];
        healthCache := healthCache w |}).
Proof.
  intros Hphase Hprov Hcred Hupd Hmoved.
  rewrite (onCreate_loop_iteration fuel provider wrapper w _ _ _ _ _ _ _
             Hphase Hprov Hcred Hupd).
  apply onCreate_loop_done, Hmoved.
Qed.

(** C3 (as the code has it): take a provider that, in every situation the
    loop can reach, returns an error and leaves the phase at Initializing,
    and let both Updates succeed.  The provider's error is overwritten by
    the Updates' nil, so the loop goes round again: no amount of fuel makes
    it return, and every round makes three more calls. *)
Theorem onCreate_loop_spins_on_provider_error
    (provider : Provider S) (reachable : ClusterWrapper → S → Prop) :
  (∀ wrapper s,
      reachable wrapper s →
      Phase (Status (WCluster wrapper)) = ClusterInitializing
      ∧ ∃ wrapper' e s1 s2 s3,
          OnCreate provider wrapper s = ((wrapper', Some e), s1)
          ∧ CredUpdate (credentials c) (WClusterCredential wrapper') s1 = (None, s2)
          ∧ Update (clusters c) (WCluster wrapper') s2 = (None, s3)
          ∧ reachable wrapper' s3) →
  ∀ (fuel : nat) (wrapper : ClusterWrapper) (w : World S),
    reachable wrapper (ext w) →
    fst (onCreate_loop c fuel provider wrapper w) = OutOfFuel
    ∧ length (trace (snd (onCreate_loop c fuel provider wrapper w)))
      = length (trace w) + 3 * fuel.
Proof.
  intros Hstep fuel. induction fuel as [|fuel IH]; intros wrapper w Hw.
  - destruct (Hstep _ _ Hw) as [Hphase _].
    cbn [onCreate_loop]. rewrite Hphase. simpl. split; [reflexivity | lia].
  - destruct (Hstep _ _ Hw)
      as (Hphase & wrapper' & e & s1 & s2 & s3 & Hprov & Hcred & Hupd & Hnext).
    rewrite (onCreate_loop_iteration fuel provider wrapper w _ _ _ _ _ _ _
               Hphase Hprov Hcred Hupd).
    destruct (IH wrapper'
                {| ext := s3;
                   trace := trace w ++
                     [ProviderOnCreate wrapper;
                      CredentialsUpdate (WClusterCredential wrapper');
                      ClustersUpdate (WCluster wrapper')];
                   healthCache := healthCache w |} Hnext) as [Hout Hlen].
    split; [exact Hout|]. rewrite Hlen. simpl. rewrite length_app. simpl. lia.
Qed.

End Provisioning.

(** C2 on the in-memory control plane: the provider fails and marks the
    cluster Failed, both Updates succeed, and the loop returns nil. *)
Lemma onCreate_loop_keeps_only_the_last_error_witness :
  fst (onCreate_loop Fake.controller 1 Fake.failing Fake.failing_wrapper
         (Fake.world (Fake.store [] [WCluster Fake.failing_wrapper] [Fake.cc_c1])))
  = Returns None.
Proof.
  rewrite (onCreate_loop_keeps_only_the_last_error Fake.controller 0 Fake.failing
             Fake.failing_wrapper
             (Fake.world (Fake.store [] [WCluster Fake.failing_wrapper] [Fake.cc_c1]))
             {| WCluster := set_Phase ClusterFailed (WCluster Fake.failing_wrapper);
                WClusterCredential := Fake.cc_c1 |}
             (Some (errorString "install failed"))
             (Fake.store [] [WCluster Fake.failing_wrapper] [Fake.cc_c1])
             None
             (Fake.store [] [WCluster Fake.failing_wrapper] [Fake.cc_c1])
             (Fake.store [] [set_Phase ClusterFailed (WCluster Fake.failing_wrapper)]
                [Fake.cc_c1])
             eq_refl eq_refl eq_refl eq_refl).
  - reflexivity.
  - vm_compute. discriminate.
Defined.

(** The same through the whole worker: the key of the failed creation is
    forgotten, not requeued. *)
Example failed_creation_is_forgotten :
  fst (syncCluster Fake.controller Fake.imports 5 "c1"
         (Fake.world (Fake.store ["c1"] [Fake.failing_c1] [])))
    = Returns None
  ∧ last (trace (snd (processNextWorkItem Fake.controller Fake.imports 5
                        (Fake.world (Fake.store ["c1"] [Fake.failing_c1] [])))))
    = Some (QueueDone "c1")
  ∧ QueueForget "c1" ∈
      trace (snd (processNextWorkItem Fake.controller Fake.imports 5
                    (Fake.world (Fake.store ["c1"] [Fake.failing_c1] [])))).
Proof.
  split; [reflexivity|]. split; [reflexivity|].
  apply list_elem_of_In. vm_compute. tauto.
Qed.

(** C3 on the in-memory control plane: a provider that keeps failing with
    the phase left at Initializing. *)
Lemma onCreate_loop_spins_on_provider_error_witness :
  fst (onCreate_loop Fake.controller 1000 Fake.stuck Fake.stuck_wrapper
         (Fake.world (Fake.store [] [WCluster Fake.stuck_wrapper] [Fake.cc_c1])))
    = OutOfFuel
  ∧ length (trace (snd (onCreate_loop Fake.controller 1000 Fake.stuck Fake.stuck_wrapper
         (Fake.world (Fake.store [] [WCluster Fake.stuck_wrapper] [Fake.cc_c1])))))
    = 3000.
Proof.
  apply (onCreate_loop_spins_on_provider_error Fake.controller Fake.stuck
           (λ wrapper s,
              wrapper = Fake.stuck_wrapper
              ∧ s = Fake.store [] [WCluster Fake.stuck_wrapper] [Fake.cc_c1])).
  - intros wrapper s [-> ->]. split; [reflexivity|].
    exists Fake.stuck_wrapper, (errorString "machine not ready"),
      (Fake.store [] [WCluster Fake.stuck_wrapper] [Fake.cc_c1]),
      (Fake.store [] [WCluster Fake.stuck_wrapper] [Fake.cc_c1]),
      (Fake.store [] [WCluster Fake.stuck_wrapper] [Fake.cc_c1]).
    repeat split.
  - split; reflexivity.
Defined.

(** The same through [syncCluster]: within any of these budgets the sync of
    the stuck cluster has not returned. *)
Example stuck_creation_never_returns :
  Forall (λ fuel,
            fst (syncCluster Fake.controller Fake.imports fuel "c1"
                   (Fake.world (Fake.store ["c1"] [Fake.stuck_c1] [])))
            = OutOfFuel)
         [0; 1; 2; 10; 100].
Proof. repeat constructor. Qed.

(** ** Whole syncs on the in-memory control plane *)

(** A fresh cluster whose provider finishes at once: a credential is
    created and referenced, Running is persisted, the key is forgotten. *)
Example happy_create :
  fst (syncCluster Fake.controller Fake.imports 5 "c1"
         (Fake.world (Fake.store ["c1"] [Fake.fresh_c1] [])))
    = Returns None
  ∧ Fake.st_clusters
      (ext (snd (processNextWorkItem Fake.controller Fake.imports 5
                   (Fake.world (Fake.store ["c1"] [Fake.fresh_c1] [])))))
    = [Fake.linked_c1]
  ∧ Fake.st_credentials
      (ext (snd (processNextWorkItem Fake.controller Fake.imports 5
                   (Fake.world (Fake.store ["c1"] [Fake.fresh_c1] [])))))
    = [Fake.cc_c1]
  ∧ List.filter (λ e, match e with QueueForget _ | QueueAddRateLimited _ => true
                               | _ => false end)
      (trace (snd (processNextWorkItem Fake.controller Fake.imports 5
                     (Fake.world (Fake.store ["c1"] [Fake.fresh_c1] [])))))
    = [QueueForget "c1"].
Proof. repeat split. Qed.

(** An Imported cluster without credential: the sync fails with the
    waiting error, the key is requeued and nothing is created. *)
Example imported_without_credential :
  fst (syncCluster Fake.controller Fake.imports 5 "c1"
         (Fake.world (Fake.store ["c1"] [Fake.imported_c1] [])))
    = Returns (Some (Errorf_w "sync old ClusterCredential error: "
                       (errorString "waiting create ClusterCredential")))
  ∧ api_calls
      (trace (snd (processNextWorkItem Fake.controller Fake.imports 5
                     (Fake.world (Fake.store ["c1"] [Fake.imported_c1] [])))))
    = [CredentialsList "clusterName=c1"]
  ∧ List.filter (λ e, match e with QueueForget _ | QueueAddRateLimited _ => true
                               | _ => false end)
      (trace (snd (processNextWorkItem Fake.controller Fake.imports 5
                     (Fake.world (Fake.store ["c1"] [Fake.imported_c1] [])))))
    = [QueueAddRateLimited "c1"].
Proof. repeat split. Qed.

(** * Further properties of the controller *)

(** ** Which events a run can add *)

Section Confinement.

Context {S : Type}.
Variable P : Event → bool.

Lemma adds_only_ret {A} (a : A) : adds_only P (mret a : M S A).
Proof. intros w. exists []. simpl. rewrite app_nil_r. auto. Qed.

Lemma adds_only_bind {A B} (m : M S A) (k : A → M S B) :
  adds_only P m → (∀ a, adds_only P (k a)) → adds_only P (m ≫= k).
Proof.
  intros Hm Hk w. unfold mbind, M_bind.
  destruct (Hm w) as (l1 & E1 & F1). destruct (m w) as [a w1]. simpl in E1.
  destruct (Hk a w1) as (l2 & E2 & F2).
  exists (l1 ++ l2). rewrite E2, E1, <- app_assoc, forallb_app, F1, F2. auto.
Qed.

Lemma adds_only_call {A} (e : Event) (f : S → A * S) :
  P e = true → adds_only P (call e f).
Proof.
  intros He w. exists [e]. unfold call. destruct (f (ext w)). simpl.
  rewrite He. auto.
Qed.

Lemma adds_only_query {A} (e : Event) (f : S → A) :
  P e = true → adds_only P (query e f).
Proof. intros He w. exists [e]. simpl. rewrite He. auto. Qed.

Lemma adds_only_emit (e : Event) : P e = true → adds_only P (emit e : M S ()).
Proof. intros He w. exists [e]. simpl. rewrite He. auto. Qed.

Lemma adds_only_Remove (key : string) : adds_only P (healthCache_Remove key : M S ()).
Proof. intros w. exists []. simpl. rewrite app_nil_r. auto. Qed.

Lemma adds_only_when (b : bool) (m : M S ()) : adds_only P m → adds_only P (when b m).
Proof. intros Hm. destruct b; [exact Hm | apply adds_only_ret]. Qed.

Lemma keeps_ret {A} (a : A) : keeps_healthCache (mret a : M S A).
Proof. intros w. reflexivity. Qed.

Lemma keeps_bind {A B} (m : M S A) (k : A → M S B) :
  keeps_healthCache m → (∀ a, keeps_healthCache (k a)) → keeps_healthCache (m ≫= k).
Proof.
  intros Hm Hk w. unfold mbind, M_bind.
  specialize (Hm w). destruct (m w) as [a w1]. simpl in Hm.
  rewrite (Hk a w1). exact Hm.
Qed.

Lemma keeps_call {A} (e : Event) (f : S → A * S) : keeps_healthCache (call e f).
Proof. intros w. unfold call. destruct (f (ext w)). reflexivity. Qed.

Lemma keeps_query {A} (e : Event) (f : S → A) : keeps_healthCache (query e f).
Proof. intros w. reflexivity. Qed.

Lemma keeps_emit (e : Event) : keeps_healthCache (emit e : M S ()).
Proof. intros w. reflexivity. Qed.

Lemma keeps_when (b : bool) (m : M S ()) :
  keeps_healthCache m → keeps_healthCache (when b m).
Proof. intros Hm. destruct b; [exact Hm | apply keeps_ret]. Qed.

End Confinement.

Create HintDb confined.

(** Walk through a monadic body: binds, calls, branches. *)
Ltac confine :=
  repeat first
    [ apply adds_only_ret
    | apply adds_only_call; reflexivity
    | apply adds_only_query; reflexivity
    | apply adds_only_emit; reflexivity
    | apply adds_only_when
    | solve [auto with confined]
    | apply adds_only_bind; [|intros ?]
    | match goal with
      | |- adds_only _ (match ?x with _ => _ end) => destruct x
      end ].

Ltac keep :=
  repeat first
    [ apply keeps_ret
    | apply keeps_call
    | apply keeps_query
    | apply keeps_emit
    | apply keeps_when
    | solve [auto with confined]
    | apply keeps_bind; [|intros ?]
    | match goal with
      | |- keeps_healthCache (match ?x with _ => _ end) => destruct x
      end ].

Section Reconciler_events.

Context {S : Type}.
Variable c : Controller S.
Variable pkg : Imports S.

Lemma ensureSyncOldClusterCredential_confined cluster :
  adds_only reconciler_event (ensureSyncOldClusterCredential c cluster).
Proof. unfold ensureSyncOldClusterCredential. confine. Qed.

Lemma ensureClusterCredential_confined cluster :
  adds_only reconciler_event (ensureClusterCredential c cluster).
Proof. unfold ensureClusterCredential. confine. Qed.

Lemma onCreate_loop_confined fuel provider wrapper :
  adds_only reconciler_event (onCreate_loop c fuel provider wrapper).
Proof.
  revert wrapper. induction fuel as [|fuel IH]; intros wrapper; cbn [onCreate_loop];
    confine.
Qed.

Lemma onUpdate_confined cluster : adds_only reconciler_event (onUpdate c pkg cluster).
Proof. unfold onUpdate. confine. Qed.

End Reconciler_events.

#[global] Hint Resolve ensureSyncOldClusterCredential_confined
  ensureClusterCredential_confined onCreate_loop_confined onUpdate_confined : confined.

Section Reconciler_keeps.

Context {S : Type}.
Variable c : Controller S.
Variable pkg : Imports S.

Lemma ensureSyncOldClusterCredential_keeps cluster :
  keeps_healthCache (ensureSyncOldClusterCredential c cluster).
Proof. unfold ensureSyncOldClusterCredential. keep. Qed.

Lemma ensureClusterCredential_keeps cluster :
  keeps_healthCache (ensureClusterCredential c cluster).
Proof. unfold ensureClusterCredential. keep. Qed.

Lemma onCreate_loop_keeps fuel provider wrapper :
  keeps_healthCache (onCreate_loop c fuel provider wrapper).
Proof.
  revert wrapper. induction fuel as [|fuel IH]; intros wrapper; cbn [onCreate_loop];
    keep.
Qed.

Lemma onUpdate_keeps cluster : keeps_healthCache (onUpdate c pkg cluster).
Proof. unfold onUpdate. keep. Qed.

End Reconciler_keeps.

#[global] Hint Resolve ensureSyncOldClusterCredential_keeps
  ensureClusterCredential_keeps onCreate_loop_keeps onUpdate_keeps : confined.

Section Sync_events.

Context {S : Type}.
Variable c : Controller S.
Variable pkg : Imports S.

Lemma onCreate_confined fuel cluster :
  adds_only reconciler_event (onCreate c pkg fuel cluster).
Proof. unfold onCreate. confine. Qed.

Lemma onCreate_keeps fuel cluster : keeps_healthCache (onCreate c pkg fuel cluster).
Proof. unfold onCreate. keep. Qed.

Hint Resolve onCreate_confined onCreate_keeps : confined.

Lemma reconcile_confined fuel key cluster :
  adds_only reconciler_event (reconcile c pkg fuel key cluster).
Proof. unfold reconcile. confine. Qed.

Lemma reconcile_keeps fuel key cluster :
  keeps_healthCache (reconcile c pkg fuel key cluster).
Proof. unfold reconcile. keep. Qed.

Hint Resolve reconcile_confined reconcile_keeps : confined.

Lemma syncCluster_confined fuel key :
  adds_only reconciler_event (syncCluster c pkg fuel key).
Proof. unfold syncCluster, syncCluster_body. confine. Qed.

Lemma syncCluster_keeps fuel key : keeps_healthCache (syncCluster c pkg fuel key).
Proof. unfold syncCluster, syncCluster_body. keep. Qed.

Lemma filter_excluded (P Q : Event → bool) (l : list Event) :
  forallb P l = true → (∀ e, P e = true → Q e = false) → List.filter Q l = [].
Proof.
  intros Hall Hex. induction l as [|e l IH]; [reflexivity|].
  simpl in Hall |- *. apply andb_true_iff in Hall as [He Hl].
  rewrite (Hex e He). apply IH, Hl.
Qed.

(** X1: whatever the collaborators answer, a sync only appends to the trace,
    and what it appends is of the reconciler's kinds: it never sends a
    Patch, never probes the managed cluster, never touches the work queue;
    and it leaves [healthCache] as it found it, so no path of the
    reconciler registers a health loop. *)
Theorem syncCluster_stays_on_its_side (fuel : nat) (key : string) (w : World S) :
  ∃ added,
    trace (snd (syncCluster c pkg fuel key w)) = trace w ++ added
    ∧ forallb reconciler_event added = true
    ∧ List.filter (λ e, match e with
                        | ClustersPatch _ _ _ | BuildClientSet _
                        | DiscoveryServerVersion => true
                        | _ => false
                        end) added = []
    ∧ List.filter queue_event added = []
    ∧ healthCache (snd (syncCluster c pkg fuel key w)) = healthCache w.
Proof.
  destruct (syncCluster_confined fuel key w) as (added & Htrace & Hkind).
  exists added. split; [exact Htrace|]. split; [exact Hkind|].
  split; [|split].
  - apply (filter_excluded reconciler_event _ added Hkind).
    intros [] He; try reflexivity; discriminate He.
  - apply (filter_excluded reconciler_event _ added Hkind).
    intros [] He; try reflexivity; discriminate He.
  - apply syncCluster_keeps.
Qed.

End Sync_events.

#[global] Hint Resolve onCreate_confined onCreate_keeps reconcile_confined
  reconcile_keeps syncCluster_confined syncCluster_keeps : confined.

(** ** The health monitor's side *)

Section Health_events.

Context {S : Type}.
Variable c : Controller S.
Variable pkg : Imports S.

(** The four ways a tick can go, with the world each leaves. *)
Lemma watchHealth_cases (key : string) (w : World S) :
  (∃ err,
      lister_Get c key (ext w) = inr err
      ∧ apierrors.IsNotFound (Some err) = true
      ∧ watchHealth c pkg key w =
          ((true, None),
           {| ext := ext w;
              trace := trace w ++
                [ListerGet key;
                 LogInfo "Stop health check because cluster has been deleted"];
              healthCache := healthCache w ∖ {[key]} |}))
  ∨ (∃ err,
      lister_Get c key (ext w) = inr err
      ∧ apierrors.IsNotFound (Some err) = false
      ∧ watchHealth c pkg key w = ((false, None), after_lookup key w))
  ∨ (∃ cluster,
      lister_Get c key (ext w) = inl cluster
      ∧ watchHealth c pkg key w = ((false, None), after_lookup key w))
  ∨ (∃ cluster probes sent logged s2,
      lister_Get c key (ext w) = inl cluster
      ∧ (probes = [BuildClientSet cluster]
         ∨ probes = [BuildClientSet cluster; DiscoveryServerVersion])
      ∧ (sent = [] ∨ ∃ data, sent = [ClustersPatch (Name cluster)
                                        StrategicMergePatchType data])
      ∧ (logged = [] ∨ ∃ e, logged = [LogError e "Check health error"])
      ∧ watchHealth c pkg key w =
          ((false, None),
           {| ext := s2;
              trace := trace w ++ [ListerGet key] ++ probes ++ sent ++ logged;
              healthCache := healthCache w |})).
Proof.
  destruct (lister_Get c key (ext w)) as [cluster|err] eqn:Hget.
  - destruct (String.eqb (Phase (Status cluster)) ClusterRunning
              || String.eqb (Phase (Status cluster)) ClusterFailed) eqn:Hphase.
    + right. right. right.
      assert (Hrf : Phase (Status cluster) = ClusterRunning
                    ∨ Phase (Status cluster) = ClusterFailed).
      { apply orb_true_iff in Hphase. rewrite !String.eqb_eq in Hphase. exact Hphase. }
      destruct (checkHealth c pkg cluster (after_lookup key w))
        as [[cluster' err] w2] eqn:E.
      rewrite (watchHealth_check c pkg key w cluster cluster' err w2 Hget Hrf E).
      destruct (checkHealth_shape c pkg cluster (after_lookup key w))
        as (cluster1 & probes & s1 & Hprobes & _ & Heq).
      rewrite Heq in E. clear Heq.
      destruct (GetPatchBytes pkg cluster cluster1) as [data|perr].
      * destruct (Patch _ _ _ _ _) as [perr sP]. injection E as <- <- <-.
        exists cluster, probes,
          [ClustersPatch (Name cluster) StrategicMergePatchType data],
          (match perr with
           | Some e => [LogError (Errorf_w "update cluster health status error: " e)
                          "Check health error"]
           | None => []
           end), sP.
        split; [reflexivity|]. split; [exact Hprobes|]. split; [right; eauto|].
        split; [destruct perr; eauto|].
        simpl. rewrite <- !app_assoc. destruct perr; reflexivity.
      * injection E as <- <- <-.
        exists cluster, probes, [],
          [LogError (Errorf_w "GetPatchBytes error: " perr) "Check health error"], s1.
        split; [reflexivity|]. split; [exact Hprobes|]. split; [left; reflexivity|].
        split; [right; eauto|].
        simpl. rewrite <- !app_assoc. reflexivity.
    + right. right. left. exists cluster. split; [reflexivity|].
      apply orb_false_iff in Hphase as [Hrun Hfail].
      apply String.eqb_neq in Hrun, Hfail.
      apply (watchHealth_skip c pkg key w cluster Hget Hrun Hfail).
  - destruct (apierrors.IsNotFound (Some err)) eqn:Hnf.
    + left. exists err. split; [reflexivity|]. split; [exact Hnf|].
      apply (watchHealth_gone c pkg key w err Hget Hnf).
    + right. left. exists err. split; [reflexivity|]. split; [exact Hnf|].
      apply (watchHealth_lookup_error c pkg key w err Hget Hnf).
Qed.

End Health_events.

Section Health_side.

Context {S : Type}.
Variable c : Controller S.
Variable pkg : Imports S.

(** X2: the calls a tick of the health poll makes itself.  Building the
    client set is one call to [util.BuildExternalClientSet], which is handed
    the platform client and is not among the sources: what it does inside
    is not counted here.  Whatever the collaborators answer, the tick's own
    calls are of the health monitor's kinds; it calls
    [BuildExternalClientSet] at most once; on the platform client it calls
    neither Update, Create, List nor Get, and at most one method in all, a
    strategic-merge Patch; it can only shrink [healthCache], and only by its
    own key. *)
Theorem watchHealth_stays_on_its_side (key : string) (w : World S) :
  ∃ added,
    trace (snd (watchHealth c pkg key w)) = trace w ++ added
    ∧ forallb health_event added = true
    ∧ (length (List.filter (λ e, match e with BuildClientSet _ => true | _ => false end)
                 added) ≤ 1)%nat
    ∧ update_calls added = []
    ∧ (length (api_calls added) ≤ 1)%nat
    ∧ healthCache (snd (watchHealth c pkg key w)) ⊆ healthCache w
    ∧ ∀ k, k ≠ key →
           (k ∈ healthCache (snd (watchHealth c pkg key w)) ↔ k ∈ healthCache w).
Proof.
  destruct (watchHealth_cases c pkg key w)
    as [(err & _ & _ & ->) | [(err & _ & _ & ->) | [(cluster & _ & ->) |
        (cluster & probes & sent & logged & s2 & _ & Hprobes & Hsent & Hlogged & ->)]]].
  - eexists. split; [reflexivity|]. simpl. repeat split; try lia.
    + apply subseteq_difference_l. reflexivity.
    + rewrite elem_of_difference. tauto.
    + rewrite elem_of_difference, elem_of_singleton. tauto.
  - exists [ListerGet key]. simpl. repeat split; auto.
  - exists [ListerGet key]. simpl. repeat split; auto.
  - exists ([ListerGet key] ++ probes ++ sent ++ logged).
    split; [reflexivity|]. simpl snd. simpl healthCache.
    assert (forallb health_event ([ListerGet key] ++ probes ++ sent ++ logged) = true
            ∧ (length (List.filter
                         (λ e, match e with BuildClientSet _ => true | _ => false end)
                         ([ListerGet key] ++ probes ++ sent ++ logged)) ≤ 1)%nat
            ∧ update_calls ([ListerGet key] ++ probes ++ sent ++ logged) = []
            ∧ (length (api_calls ([ListerGet key] ++ probes ++ sent ++ logged)) ≤ 1)%nat)
      as (H1 & H0 & H2 & H3).
    { destruct Hprobes as [-> | ->], Hsent as [-> | [data ->]],
        Hlogged as [-> | [e ->]]; simpl; repeat split; lia. }
    repeat split; auto.
Qed.

(** X3: a tick never returns an error, and it reports done exactly when the
    lister answers NotFound for the key; so the poll stops only once the
    cluster is gone from the cache, and then the key is no longer in
    [healthCache]. *)
Theorem watchHealth_done_iff_gone (key : string) (w : World S) :
  snd (fst (watchHealth c pkg key w)) = None
  ∧ (fst (fst (watchHealth c pkg key w)) = true ↔
     ∃ err, lister_Get c key (ext w) = inr err
            ∧ apierrors.IsNotFound (Some err) = true)
  ∧ (fst (fst (watchHealth c pkg key w)) = true →
     key ∉ healthCache (snd (watchHealth c pkg key w))).
Proof.
  destruct (watchHealth_cases c pkg key w)
    as [(err & Hget & Hnf & ->) | [(err & Hget & Hnf & ->) | [(cluster & Hget & ->) |
        (cluster & probes & sent & logged & s2 & Hget & _ & _ & _ & ->)]]]; simpl.
  - split; [reflexivity|]. split.
    + split; [eauto | reflexivity].
    + intros _. rewrite elem_of_difference, elem_of_singleton. tauto.
  - split; [reflexivity|]. split; [|discriminate]. split; [discriminate|].
    intros (err' & Hget' & Hnf'). congruence.
  - split; [reflexivity|]. split; [|discriminate]. split; [discriminate|].
    intros (err' & Hget' & _). congruence.
  - split; [reflexivity|]. split; [|discriminate]. split; [discriminate|].
    intros (err' & Hget' & _). congruence.
Qed.

End Health_side.

(** ** The worker's bookkeeping *)

Section Worker_turns.

Context {S : Type}.
Variable c : Controller S.
Variable pkg : Imports S.

Lemma count_events_app P (t u : list Event) :
  count_events P (t ++ u) = count_events P t + count_events P u.
Proof. unfold count_events. rewrite List.filter_app, length_app. reflexivity. Qed.

Lemma count_events_reconciler P (t : list Event) :
  forallb reconciler_event t = true →
  (∀ e, reconciler_event e = true → P e = false) →
  count_events P t = 0.
Proof.
  intros Hall Hex. unfold count_events.
  rewrite (filter_excluded reconciler_event P t Hall Hex). reflexivity.
Qed.

(** What one turn of the worker appends to the trace. *)
Lemma processNextWorkItem_turn (fuel : nat) (w : World S) :
  ∃ added,
    trace (snd (processNextWorkItem c pkg fuel w)) = trace w ++ added
    ∧ match fst (processNextWorkItem c pkg fuel w) with
      | Returns false =>
          added = [QueueGet] ∧ snd (fst (queue_Get c (ext w))) = true
      | Returns true =>
          snd (fst (queue_Get c (ext w))) = false
          ∧ ∃ mid tail,
              added = [QueueGet] ++ mid ++ tail
              ∧ forallb reconciler_event mid = true
              ∧ (tail = [QueueForget (fst (fst (queue_Get c (ext w))));
                         QueueDone (fst (fst (queue_Get c (ext w))))]
                 ∨ ∃ msg,
                     tail = [HandleError msg;
                             QueueAddRateLimited (fst (fst (queue_Get c (ext w))));
                             QueueDone (fst (fst (queue_Get c (ext w))))])
      | OutOfFuel => snd (fst (queue_Get c (ext w))) = false
      end.
Proof.
  unfold processNextWorkItem, mbind, M_bind, mret, M_ret, call, emit.
  destruct (queue_Get c (ext w)) as [[key quit] s1]. destruct quit.
  - exists [QueueGet]. simpl. auto.
  - cbn beta iota.
    destruct (syncCluster_confined c pkg fuel key
                {| ext := s1; trace := trace w ++ [QueueGet];
                   healthCache := healthCache w |}) as (mid & Hmid & Hkind).
    destruct (syncCluster c pkg fuel key _) as [r w2]. simpl in Hmid.
    destruct r as [[e|]|].
    + eexists. split.
      * simpl. rewrite Hmid. rewrite <- !app_assoc. reflexivity.
      * simpl. split; [reflexivity|]. exists mid. eexists. split; [reflexivity|].
        split; [exact Hkind|]. right. eexists. reflexivity.
    + eexists. split.
      * simpl. rewrite Hmid. rewrite <- !app_assoc. reflexivity.
      * simpl. split; [reflexivity|]. exists mid. eexists. split; [reflexivity|].
        split; [exact Hkind|]. left. reflexivity.
    + exists ([QueueGet] ++ mid). split.
      * simpl. rewrite Hmid. rewrite <- !app_assoc. reflexivity.
      * reflexivity.
Qed.

End Worker_turns.

Section Worker_bookkeeping.

Context {S : Type}.
Variable c : Controller S.
Variable pkg : Imports S.

Lemma reconciler_not_queue P :
  (∀ e, P e = true → queue_event e = true) →
  ∀ e, reconciler_event e = true → P e = false.
Proof.
  intros HP e He. destruct (P e) eqn:E; [|reflexivity].
  apply HP in E. destruct e; discriminate.
Qed.


(** X5: when the worker loop returns, it has called Get once more than
    Done (the last Get saw the shutdown), and every Done came with exactly
    one Forget or AddRateLimited: no key is taken and left undone, none is
    both forgotten and re-added. *)
Theorem worker_bookkeeping (rounds fuel : nat) (w : World S) :
  fst (worker c pkg rounds fuel w) = Returns tt →
  ∃ added,
    trace (snd (worker c pkg rounds fuel w)) = trace w ++ added
    ∧ count_events is_QueueGet added = count_events is_QueueDone added + 1
    ∧ count_events is_QueueDone added
      = count_events is_QueueForget added + count_events is_QueueAddRateLimited added.
Proof.
  revert w. induction rounds as [|rounds IH]; intros w Hret; [discriminate|].
  cbn [worker] in Hret |- *. unfold mbind, M_bind in Hret |- *.
  destruct (processNextWorkItem_turn c pkg fuel w) as (added1 & Htrace & Hcase).
  destruct (processNextWorkItem c pkg fuel w) as [r w1]. simpl in Htrace, Hcase.
  destruct r as [[|]|]; [| |discriminate].
  - destruct (IH w1 Hret) as (added2 & Htrace2 & Hget & Hdone).
    destruct Hcase as (_ & mid & tail & -> & Hmid & Htail).
    exists (([QueueGet] ++ mid ++ tail) ++ added2).
    split; [rewrite Htrace2, Htrace, <- app_assoc; reflexivity|].
    assert (Hq : ∀ P, (∀ e, P e = true → queue_event e = true) →
                      count_events P mid = 0).
    { intros P HP. apply (count_events_reconciler P mid Hmid).
      apply reconciler_not_queue, HP. }
    rewrite !count_events_app, !Hq by (intros []; simpl; congruence).
    destruct Htail as [-> | [msg ->]]; unfold count_events at 1 2 3 4 5 6 7 8; simpl;
      unfold count_events in *; lia.
  - destruct Hcase as [-> _]. exists [QueueGet]. simpl. auto.
Qed.

End Worker_bookkeeping.

(** X5 on the in-memory control plane: two keys, one of a fresh cluster and
    one of a cluster that is gone, then shutdown. *)
Lemma worker_bookkeeping_witness :
  ∃ added,
    trace (snd (worker Fake.controller Fake.imports 3 5
                  (Fake.world (Fake.store ["c1"; "gone"] [Fake.fresh_c1] []))))
    = trace (Fake.world (Fake.store ["c1"; "gone"] [Fake.fresh_c1] [])) ++ added
    ∧ count_events is_QueueGet added = count_events is_QueueDone added + 1
    ∧ count_events is_QueueDone added
      = count_events is_QueueForget added + count_events is_QueueAddRateLimited added.
Proof.
  apply (worker_bookkeeping Fake.controller Fake.imports 3 5
           (Fake.world (Fake.store ["c1"; "gone"] [Fake.fresh_c1] []))).
  reflexivity.
Defined.

(** ** The informer's handlers *)

Section Handlers.

Variable KeyFunc : Cluster → string * option error.

Lemma needsUpdate_false_iff (old new : Cluster) :
  needsUpdate old new = false ↔ Spec old = Spec new ∧ Status old = Status new.
Proof.
  unfold needsUpdate.
  rewrite <- DeepEqual_ClusterSpec_iff, <- DeepEqual_ClusterStatus_iff.
  destruct (reflect.DeepEqual_ClusterSpec (Spec old) (Spec new)),
    (reflect.DeepEqual_ClusterStatus (Status old) (Status new)); simpl;
    intuition congruence.
Qed.

(** X6: an update event does nothing at all (no log line, no key added)
    exactly when the old and the new object have equal Spec and equal
    Status, as on a resync; otherwise it logs and adds the key of the new
    object, once.  When the key function fails, neither handler adds
    anything to the queue. *)
Theorem updateCluster_filters (old new : Cluster) :
  (updateCluster KeyFunc old new = [] ↔ Spec old = Spec new ∧ Status old = Status new)
  ∧ updateCluster KeyFunc new new = []
  ∧ (∀ key,
        Spec old ≠ Spec new ∨ Status old ≠ Status new →
        KeyFunc new = (key, None) →
        updateCluster KeyFunc old new =
          [InfoLogged "Updating cluster" (Name new); QueueAdded key])
  ∧ (∀ key err,
        KeyFunc new = (key, Some err) →
        List.filter (λ e, match e with QueueAdded _ => true | _ => false end)
          (updateCluster KeyFunc old new ++ addCluster KeyFunc new) = []).
Proof.
  split; [|split; [|split]].
  - unfold updateCluster. rewrite <- needsUpdate_false_iff.
    destruct (needsUpdate old new); simpl; split; congruence.
  - unfold updateCluster.
    assert (needsUpdate new new = false) as -> by (apply needsUpdate_false_iff; auto).
    reflexivity.
  - intros key Hdiff Hkey. unfold updateCluster, enqueue.
    destruct (needsUpdate old new) eqn:E.
    + rewrite Hkey. reflexivity.
    + apply needsUpdate_false_iff in E as [? ?]. destruct Hdiff; contradiction.
  - intros key err Hkey. unfold updateCluster, addCluster, enqueue. rewrite Hkey.
    destruct (needsUpdate old new); reflexivity.
Qed.

End Handlers.

Lemma updateCluster_filters_witness :
  updateCluster Scenario.KeyFunc Fake.fresh_c1 Fake.linked_c1
  = [InfoLogged "Updating cluster" "c1"; QueueAdded "c1"]
  ∧ List.filter (λ e, match e with QueueAdded _ => true | _ => false end)
      (updateCluster Scenario.brokenKeyFunc Fake.fresh_c1 Fake.linked_c1
       ++ addCluster Scenario.brokenKeyFunc Fake.linked_c1) = [].
Proof.
  destruct (updateCluster_filters Scenario.KeyFunc Fake.fresh_c1 Fake.linked_c1)
    as (_ & _ & Hadd & _).
  destruct (updateCluster_filters Scenario.brokenKeyFunc Fake.fresh_c1 Fake.linked_c1)
    as (_ & _ & _ & Hbroken).
  split.
  - apply (Hadd "c1"); [left; vm_compute; discriminate | reflexivity].
  - apply (Hbroken "" (errorString "object has no meta")). reflexivity.
Defined.

(** ** Keys *)

Section Keys.

Context {S : Type}.
Variable c : Controller S.
Variable pkg : Imports S.

(** X7: a key that does not split is an error of the sync itself: the
    lister is not consulted, nothing is sent to the API, and the worker
    re-adds the very same key with AddRateLimited. *)
Theorem syncCluster_malformed_key
    (fuel : nat) (key namespace name : string) (err : error) (w : World S) :
  cache.SplitMetaNamespaceKey key = (namespace, name, Some err) →
  syncCluster c pkg fuel key w =
    (Returns (Some err),
     {| ext := ext w; trace := trace w ++ [LogInfo "Finished syncing cluster"];
        healthCache := healthCache w |})
  ∧ ∀ s1,
      queue_Get c (ext w) = ((key, false), s1) →
      processNextWorkItem c pkg fuel w =
        (Returns true,
         {| ext := s1;
            trace := trace w ++
              [QueueGet;
               LogInfo "Finished syncing cluster";
               HandleError ("error processing cluster " +:+ key +:+ " (will retry): "
                            +:+ Error err);
               QueueAddRateLimited key;
               QueueDone key];
            healthCache := healthCache w |}).
Proof.
  intros Hkey. split.
  - unfold syncCluster, syncCluster_body. rewrite Hkey. reflexivity.
  - intros s1 Hq. unfold processNextWorkItem, syncCluster, syncCluster_body.
    unfold mbind, M_bind, call. rewrite Hq. cbn beta iota. rewrite Hkey.
    simpl. rewrite <- !app_assoc. reflexivity.
Qed.

End Keys.

Lemma syncCluster_malformed_key_witness :
  fst (syncCluster Fake.controller Fake.imports 1 "a/b/c"
         (Fake.world (Fake.store ["a/b/c"] [] [])))
    = Returns (snd (cache.SplitMetaNamespaceKey "a/b/c"))
  ∧ List.filter (λ e, queue_event e || is_api_call e
                      || match e with ListerGet _ => true | _ => false end)
      (trace (snd (processNextWorkItem Fake.controller Fake.imports 1
                     (Fake.world (Fake.store ["a/b/c"] [] [])))))
    = [QueueGet; QueueAddRateLimited "a/b/c"; QueueDone "a/b/c"].
Proof.
  destruct (syncCluster_malformed_key Fake.controller Fake.imports 1 "a/b/c" "" ""
              (errorString ("unexpected key format: " +:+ cache.Quote "a/b/c"))
              (Fake.world (Fake.store ["a/b/c"] [] [])) eq_refl) as [Hsync Hwork].
  split.
  - rewrite Hsync. reflexivity.
  - rewrite (Hwork (Fake.store [] [] []) eq_refl). reflexivity.
Defined.

(** ** What the credential steps can change *)

Section Credential_frames.

Context {S : Type}.
Variable c : Controller S.

Lemma set_ClusterCredentialRef_same_but_ref r cluster :
  same_but_ref (set_ClusterCredentialRef r cluster) cluster.
Proof. repeat split. Qed.

Lemma same_but_ref_refl cluster : same_but_ref cluster cluster.
Proof. repeat split. Qed.

(** Either the cluster comes back as it went in, or the reference was nil,
    has been filled in, and the last call is the Update of the cluster that
    comes back. *)
Lemma ensureSyncOldClusterCredential_result (cluster : Cluster) (w : World S) :
  (fst (fst (ensureSyncOldClusterCredential c cluster w)) = cluster
   ∧ update_calls (trace (snd (ensureSyncOldClusterCredential c cluster w)))
     = update_calls (trace w))
  ∨ (∃ credential,
        ClusterCredentialRef (Spec cluster) = None
        ∧ fst (fst (ensureSyncOldClusterCredential c cluster w))
          = set_ClusterCredentialRef (Some {| RefName := CredName credential |}) cluster
        ∧ trace (snd (ensureSyncOldClusterCredential c cluster w))
          = trace w ++
            [CredentialsList (fields.OneTermEqualSelector "clusterName" (Name cluster));
             ClustersUpdate (fst (fst (ensureSyncOldClusterCredential c cluster w)))]).
Proof.
  unfold ensureSyncOldClusterCredential.
  destruct (ClusterCredentialRef (Spec cluster)) as [ref|] eqn:Href; [left; auto|].
  unfold mbind, M_bind, mret, M_ret, call, credentials, clusters.
  destruct (List _ _ (ext w)) as [[[|credential rest]|e] s1]; cbn beta iota zeta.
  - left. destruct (String.eqb _ _); simpl; rewrite update_calls_app, app_nil_r; auto.
  - right. exists credential. split; [reflexivity|].
    cbn [ext trace healthCache].
    destruct (Update _ _ s1) as [[e|] s2]; simpl; rewrite <- app_assoc; auto.
  - left. simpl. rewrite update_calls_app, app_nil_r. auto.
Qed.

Lemma ensureClusterCredential_result (cluster : Cluster) (w : World S) :
  (fst (fst (ensureClusterCredential c cluster w)) = cluster
   ∧ List.filter (λ e, match e with ClustersUpdate _ => true | _ => false end)
       (trace (snd (ensureClusterCredential c cluster w)))
     = List.filter (λ e, match e with ClustersUpdate _ => true | _ => false end)
         (trace w))
  ∨ (∃ credential,
        ClusterCredentialRef (Spec cluster) = None
        ∧ Type_ (Spec cluster) ≠ "Imported"
        ∧ fst (fst (ensureClusterCredential c cluster w))
          = set_ClusterCredentialRef (Some {| RefName := CredName credential |}) cluster
        ∧ trace (snd (ensureClusterCredential c cluster w))
          = trace w ++
            [CredentialsCreate (fresh_credential cluster);
             ClustersUpdate (fst (fst (ensureClusterCredential c cluster w)))]).
Proof.
  unfold ensureClusterCredential.
  destruct (ClusterCredentialRef (Spec cluster)) as [ref|] eqn:Href.
  - left. unfold mbind, M_bind, mret, M_ret, call, credentials, clusters.
    destruct (CredGet _ _ (ext w)) as [[credential|e] s1]; cbn beta iota zeta.
    + destruct (negb _); cbn [ext trace healthCache].
      * destruct (CredUpdate _ _ s1) as [[e|] s2]; simpl;
          rewrite !List.filter_app; simpl; rewrite !app_nil_r; auto.
      * simpl. rewrite List.filter_app. simpl. rewrite app_nil_r. auto.
    + simpl. rewrite List.filter_app. simpl. rewrite app_nil_r. auto.
  - destruct (String.eqb (Type_ (Spec cluster)) "Imported") eqn:Hty; [left; auto|].
    apply String.eqb_neq in Hty.
    unfold mbind, M_bind, mret, M_ret, call, credentials, clusters.
    destruct (Create _ _ (ext w)) as [[credential err] s1]; cbn beta iota zeta.
    destruct (notNil err && negb (apierrors.IsAlreadyExists err)).
    + left. simpl. rewrite List.filter_app. simpl. rewrite app_nil_r. auto.
    + right. exists credential. split; [reflexivity|]. split; [exact Hty|].
      cbn [ext trace healthCache].
      destruct (Update _ _ s1) as [[e|] s2]; simpl; rewrite <- app_assoc; auto.
Qed.

(** X8: the legacy sync can change nothing of the cluster but its
    credential reference, and only from nil to a credential's name; it never
    touches the name, the type, the tenant or the status.  Whenever the
    cluster it hands back differs from the one it got, its last call is the
    Update of exactly that cluster. *)
Theorem ensureSyncOldClusterCredential_frame (cluster : Cluster) (w : World S) :
  same_but_ref (fst (fst (ensureSyncOldClusterCredential c cluster w))) cluster
  ∧ (ClusterCredentialRef (Spec cluster) ≠ None →
     fst (fst (ensureSyncOldClusterCredential c cluster w)) = cluster)
  ∧ (fst (fst (ensureSyncOldClusterCredential c cluster w)) ≠ cluster →
     is_Some (ClusterCredentialRef
                (Spec (fst (fst (ensureSyncOldClusterCredential c cluster w)))))
     ∧ last (trace (snd (ensureSyncOldClusterCredential c cluster w)))
       = Some (ClustersUpdate (fst (fst (ensureSyncOldClusterCredential c cluster w))))).
Proof.
  destruct (ensureSyncOldClusterCredential_result cluster w)
    as [[Hsame _] | (credential & Href & Hset & Htrace)].
  - rewrite Hsame. split; [apply same_but_ref_refl|]. split; [auto|]. congruence.
  - rewrite Htrace. rewrite Hset. split; [apply set_ClusterCredentialRef_same_but_ref|].
    split; [congruence|]. intros _. split; [simpl; eauto|].
    rewrite <- trace_app2. apply last_snoc.
Qed.

(** X9: [ensureClusterCredential] too can change nothing of the cluster but
    its credential reference.  A cluster whose reference is set, and an
    "Imported" cluster, come back untouched and no Update of a cluster is
    sent; whenever the cluster handed back differs from the one received,
    the last call is the Update of exactly that cluster. *)
Theorem ensureClusterCredential_frame (cluster : Cluster) (w : World S) :
  same_but_ref (fst (fst (ensureClusterCredential c cluster w))) cluster
  ∧ (ClusterCredentialRef (Spec cluster) ≠ None ∨ Type_ (Spec cluster) = "Imported" →
     fst (fst (ensureClusterCredential c cluster w)) = cluster
     ∧ List.filter (λ e, match e with ClustersUpdate _ => true | _ => false end)
         (trace (snd (ensureClusterCredential c cluster w)))
       = List.filter (λ e, match e with ClustersUpdate _ => true | _ => false end)
           (trace w))
  ∧ (fst (fst (ensureClusterCredential c cluster w)) ≠ cluster →
     last (trace (snd (ensureClusterCredential c cluster w)))
     = Some (ClustersUpdate (fst (fst (ensureClusterCredential c cluster w))))).
Proof.
  destruct (ensureClusterCredential_result cluster w)
    as [[Hsame Hupd] | (credential & Href & Hty & Hset & Htrace)].
  - rewrite Hsame. split; [apply same_but_ref_refl|]. split; [auto|]. congruence.
  - rewrite Htrace. rewrite Hset. split; [apply set_ClusterCredentialRef_same_but_ref|].
    split; [intros [?|?]; congruence|]. intros _.
    rewrite <- trace_app2. apply last_snoc.
Qed.

End Credential_frames.

(** ** Dispatch on the phase *)

Section Dispatch.

Context {S : Type}.
Variable c : Controller S.
Variable pkg : Imports S.

Lemma ensureSyncOldClusterCredential_Status cluster (w : World S) cluster1 err w1 :
  ensureSyncOldClusterCredential c cluster w = ((cluster1, err), w1) →
  Status cluster1 = Status cluster.
Proof.
  intros H.
  destruct (ensureSyncOldClusterCredential_result c cluster w)
    as [[Hsame _] | (credential & _ & Hset & _)]; rewrite H in *; simpl in *; subst;
    reflexivity.
Qed.

(** X10: once the legacy sync has returned nil, [reconcile] dispatches on
    the phase the cluster had on entry, handing on the cluster as the legacy
    sync left it: Initializing goes to [onCreate], Running and Failed to
    [onUpdate], Terminating to the deleter with the queue key, whose error
    is the result; any other phase is logged and answered with nil, nothing
    else being called. *)
Theorem reconcile_dispatch
    (fuel : nat) (key : string) (cluster : Cluster) (w : World S) cluster1 w1 :
  ensureSyncOldClusterCredential c cluster w = ((cluster1, None), w1) →
  (Phase (Status cluster) = ClusterInitializing →
   reconcile c pkg fuel key cluster w = onCreate c pkg fuel cluster1 w1)
  ∧ (Phase (Status cluster) = ClusterRunning ∨ Phase (Status cluster) = ClusterFailed →
     reconcile c pkg fuel key cluster w =
       (Returns (fst (onUpdate c pkg cluster1 w1)), snd (onUpdate c pkg cluster1 w1)))
  ∧ (Phase (Status cluster) = ClusterTerminating →
     ∀ err s2,
       deleter_Delete c key (ext w1) = (err, s2) →
       reconcile c pkg fuel key cluster w =
         (Returns err,
          {| ext := s2;
             trace := trace w1 ++
               [LogInfo "Cluster has been terminated. Attempting to cleanup resources";
                DeleterDelete key] ++
               match err with
               | None => [LogInfo "Machine has been successfully deleted"]
               | Some _ => []
               end;
             healthCache := healthCache w1 |}))
  ∧ (Phase (Status cluster) ≠ ClusterInitializing →
     Phase (Status cluster) ≠ ClusterRunning →
     Phase (Status cluster) ≠ ClusterFailed →
     Phase (Status cluster) ≠ ClusterTerminating →
     reconcile c pkg fuel key cluster w =
       (Returns None,
        {| ext := ext w1; trace := trace w1 ++ [LogInfo "unknown cluster phase"];
           healthCache := healthCache w1 |})).
Proof.
  intros Hsync.
  pose proof (ensureSyncOldClusterCredential_Status cluster w cluster1 None w1 Hsync)
    as Hstatus.
  assert (Hrec : ∀ phase, Phase (Status cluster) = phase →
            reconcile c pkg fuel key cluster w =
              (if String.eqb phase ClusterInitializing then onCreate c pkg fuel cluster1
               else if String.eqb phase ClusterRunning || String.eqb phase ClusterFailed
                    then err ← onUpdate c pkg cluster1; mret (Returns err)
               else if String.eqb phase ClusterTerminating then
                 emit (LogInfo
                   "Cluster has been terminated. Attempting to cleanup resources");;
                 err ← call (DeleterDelete key) (deleter_Delete c key);
                 when (negb (notNil err))
                      (emit (LogInfo "Machine has been successfully deleted"));;
                 mret (Returns err)
               else emit (LogInfo "unknown cluster phase");; mret (Returns None)) w1).
  { intros phase <-. unfold reconcile. unfold mbind at 1, M_bind at 1. rewrite Hsync.
    cbn beta iota zeta. rewrite Hstatus. reflexivity. }
  split; [|split; [|split]].
  - intros Hphase. rewrite (Hrec _ Hphase). reflexivity.
  - intros [Hphase | Hphase]; rewrite (Hrec _ Hphase); simpl;
      unfold mbind, M_bind, mret, M_ret;
      destruct (onUpdate c pkg cluster1 w1); reflexivity.
  - intros Hphase err s2 Hdel. rewrite (Hrec _ Hphase). simpl.
    unfold mbind, M_bind, mret, M_ret, call, emit, when. simpl. rewrite Hdel.
    destruct err; simpl; rewrite <- !app_assoc; reflexivity.
  - intros H1 H2 H3 H4. rewrite (Hrec _ eq_refl).
    apply String.eqb_neq in H1, H2, H3, H4.
    rewrite H1, H2, H3, H4. reflexivity.
Qed.

Lemma ensureSyncOldClusterCredential_added (cluster : Cluster) (w : World S) :
  ∃ added,
    trace (snd (ensureSyncOldClusterCredential c cluster w)) = trace w ++ added
    ∧ (added = []
       ∨ added = [CredentialsList
                    (fields.OneTermEqualSelector "clusterName" (Name cluster))]
       ∨ ∃ cluster1,
           added = [CredentialsList
                      (fields.OneTermEqualSelector "clusterName" (Name cluster));
                    ClustersUpdate cluster1]).
Proof.
  unfold ensureSyncOldClusterCredential.
  destruct (ClusterCredentialRef (Spec cluster)) as [ref|].
  { exists []. simpl. rewrite app_nil_r. auto. }
  unfold mbind, M_bind, mret, M_ret, call, credentials, clusters.
  destruct (List _ _ (ext w)) as [[[|credential rest]|e] s1]; cbn beta iota zeta.
  - eexists. split; [|right; left; reflexivity]. destruct (String.eqb _ _); reflexivity.
  - eexists. split; [|right; right; eexists; reflexivity].
    cbn [ext trace healthCache].
    destruct (Update _ _ s1) as [[e|] s2]; simpl; rewrite <- app_assoc; reflexivity.
  - eexists. split; [|right; left; reflexivity]. reflexivity.
Qed.

(** X11: an error of the legacy sync ends [reconcile] at once: the result is
    that error wrapped with the prefix "sync old ClusterCredential error: ",
    and no wrapper is built and neither a provider nor the deleter is
    called, whatever the phase. *)
Theorem reconcile_sync_error
    (fuel : nat) (key : string) (cluster : Cluster) (w : World S) cluster1 e w1 :
  ensureSyncOldClusterCredential c cluster w = ((cluster1, Some e), w1) →
  reconcile c pkg fuel key cluster w =
    (Returns (Some (wrapError ("sync old ClusterCredential error: " +:+ Error e) e)), w1)
  ∧ List.filter (λ ev, match ev with
                       | ProviderOnCreate _ | ProviderOnUpdate _ | DeleterDelete _
                       | GetClusterWrapper _ => true
                       | _ => false
                       end)
      (trace (snd (reconcile c pkg fuel key cluster w)))
    = List.filter (λ ev, match ev with
                         | ProviderOnCreate _ | ProviderOnUpdate _ | DeleterDelete _
                         | GetClusterWrapper _ => true
                         | _ => false
                         end)
        (trace w).
Proof.
  intros Hsync.
  assert (Hrec : reconcile c pkg fuel key cluster w =
    (Returns (Some (wrapError ("sync old ClusterCredential error: " +:+ Error e) e)), w1)).
  { unfold reconcile. unfold mbind at 1, M_bind at 1. rewrite Hsync. reflexivity. }
  split; [exact Hrec|]. rewrite Hrec. simpl.
  destruct (ensureSyncOldClusterCredential_added cluster w) as (added & Ht & Hadded).
  rewrite Hsync in Ht. simpl in Ht. rewrite Ht, List.filter_app.
  destruct Hadded as [-> | [-> | [cl ->]]]; simpl; apply app_nil_r.
Qed.

End Dispatch.

(** X10 on the in-memory control plane: a Terminating cluster goes to the
    deleter, a cluster in a phase the controller does not know is only
    logged. *)
Lemma reconcile_dispatch_witness :
  reconcile Fake.controller Fake.imports 1 "c1" Scenario.terminating_c1
    (Fake.world (Fake.store [] [Scenario.terminating_c1] [Fake.cc_c1]))
  = (Returns None,
     {| ext := Fake.store [] [] [Fake.cc_c1];
        trace := [LogInfo "Cluster has been terminated. Attempting to cleanup resources";
                  DeleterDelete "c1";
                  LogInfo "Machine has been successfully deleted"];
        healthCache := ∅ |})
  ∧ reconcile Fake.controller Fake.imports 1 "c1" Scenario.upgrading_c1
      (Fake.world (Fake.store [] [Scenario.upgrading_c1] [Fake.cc_c1]))
    = (Returns None,
       {| ext := Fake.store [] [Scenario.upgrading_c1] [Fake.cc_c1];
          trace := [LogInfo "unknown cluster phase"];
          healthCache := ∅ |}).
Proof.
  split.
  - destruct (reconcile_dispatch Fake.controller Fake.imports 1 "c1"
                Scenario.terminating_c1
                (Fake.world (Fake.store [] [Scenario.terminating_c1] [Fake.cc_c1]))
                Scenario.terminating_c1
                (Fake.world (Fake.store [] [Scenario.terminating_c1] [Fake.cc_c1]))
                eq_refl) as (_ & _ & H & _).
    exact (H eq_refl None (Fake.store [] [] [Fake.cc_c1]) eq_refl).
  - destruct (reconcile_dispatch Fake.controller Fake.imports 1 "c1"
                Scenario.upgrading_c1
                (Fake.world (Fake.store [] [Scenario.upgrading_c1] [Fake.cc_c1]))
                Scenario.upgrading_c1
                (Fake.world (Fake.store [] [Scenario.upgrading_c1] [Fake.cc_c1]))
                eq_refl) as (_ & _ & _ & H).
    apply H; vm_compute; discriminate.
Defined.

(** X11 on the in-memory control plane: an Imported cluster that waits for
    its credential, in phase Running. *)
Lemma reconcile_sync_error_witness :
  reconcile Fake.controller Fake.imports 1 "c1"
    (Fake.cluster "c1" "Imported" "Running" None)
    (Fake.world (Fake.store [] [Fake.cluster "c1" "Imported" "Running" None] []))
  = (Returns (Some (wrapError
                      "sync old ClusterCredential error: waiting create ClusterCredential"
                      (errorString "waiting create ClusterCredential"))),
     {| ext := Fake.store [] [Fake.cluster "c1" "Imported" "Running" None] [];
        trace := [CredentialsList "clusterName=c1"];
        healthCache := ∅ |}).
Proof.
  apply (reconcile_sync_error Fake.controller Fake.imports 1 "c1"
           (Fake.cluster "c1" "Imported" "Running" None)
           (Fake.world (Fake.store [] [Fake.cluster "c1" "Imported" "Running" None] []))
           (Fake.cluster "c1" "Imported" "Running" None)
           (errorString "waiting create ClusterCredential")
           {| ext := Fake.store [] [Fake.cluster "c1" "Imported" "Running" None] [];
              trace := [CredentialsList "clusterName=c1"];
              healthCache := ∅ |}
           eq_refl).
Defined.

(** ** Steady-state reconciliation and the entry of provisioning *)

Section Update_and_create.

Context {S : Type}.
Variable c : Controller S.
Variable pkg : Imports S.

(** X12: [onUpdate] calls the provider's OnUpdate exactly once, then sends
    the Update of the wrapper's credential and the Update of the wrapper's
    cluster whatever the provider and the first Update answered; its result
    is the error of the cluster Update alone. *)
Theorem onUpdate_spec
    (cluster : Cluster) (w : World S)
    provider wrapper s1 wrapper' perr s2 cerr s3 uerr s4 :
  GetProvider pkg (Type_ (Spec cluster)) = inl provider →
  GetCluster pkg cluster (ext w) = (inl wrapper, s1) →
  OnUpdate provider wrapper s1 = ((wrapper', perr), s2) →
  CredUpdate (credentials c) (WClusterCredential wrapper') s2 = (cerr, s3) →
  Update (clusters c) (WCluster wrapper') s3 = (uerr, s4) →
  onUpdate c pkg cluster w =
    (uerr,
     {| ext := s4;
        trace := trace w ++
          [GetClusterWrapper cluster;
           ProviderOnUpdate wrapper;
           CredentialsUpdate (WClusterCredential wrapper');
           ClustersUpdate (WCluster wrapper')];
        healthCache := healthCache w |}).
Proof.
  intros Hprov Hwrap Hon Hcred Hupd. unfold onUpdate. rewrite Hprov. run.
  rewrite <- !app_assoc. destruct uerr; reflexivity.
Qed.

(** X13: [onCreate] and [onUpdate] give up before calling anything when no
    provider is registered for the cluster's type; [onCreate] wraps an error
    of [ensureClusterCredential] with the prefix
    "ensureClusterCredential error: " and then builds no wrapper; and when
    the wrapper cannot be built neither of them calls a provider or sends an
    Update. *)
Theorem provider_is_called_last (fuel : nat) (cluster : Cluster) (w : World S) :
  (∀ e,
      GetProvider pkg (Type_ (Spec cluster)) = inr e →
      onCreate c pkg fuel cluster w = (Returns (Some e), w)
      ∧ onUpdate c pkg cluster w = (Some e, w))
  ∧ (∀ provider cluster1 e w1,
      GetProvider pkg (Type_ (Spec cluster)) = inl provider →
      ensureClusterCredential c cluster w = ((cluster1, Some e), w1) →
      onCreate c pkg fuel cluster w =
        (Returns (Some (wrapError ("ensureClusterCredential error: " +:+ Error e) e)),
         w1))
  ∧ (∀ provider e s1,
      GetProvider pkg (Type_ (Spec cluster)) = inl provider →
      GetCluster pkg cluster (ext w) = (inr e, s1) →
      onUpdate c pkg cluster w =
        (Some e,
         {| ext := s1; trace := trace w ++ [GetClusterWrapper cluster];
            healthCache := healthCache w |}))
  ∧ (∀ provider cluster1 w1 e s2,
      GetProvider pkg (Type_ (Spec cluster)) = inl provider →
      ensureClusterCredential c cluster w = ((cluster1, None), w1) →
      GetCluster pkg cluster1 (ext w1) = (inr e, s2) →
      onCreate c pkg fuel cluster w =
        (Returns (Some e),
         {| ext := s2; trace := trace w1 ++ [GetClusterWrapper cluster1];
            healthCache := healthCache w1 |})).
Proof.
  split; [|split; [|split]].
  - intros e Hprov. unfold onCreate, onUpdate. rewrite Hprov. auto.
  - intros provider cluster1 e w1 Hprov Hcred. unfold onCreate. rewrite Hprov.
    unfold mbind at 1, M_bind at 1. rewrite Hcred. reflexivity.
  - intros provider e s1 Hprov Hwrap. unfold onUpdate. rewrite Hprov. run. reflexivity.
  - intros provider cluster1 w1 e s2 Hprov Hcred Hwrap. unfold onCreate. rewrite Hprov.
    unfold mbind at 1, M_bind at 1. rewrite Hcred. run. reflexivity.
Qed.

(** X14: in the provisioning loop a failed Update of the cluster ends the
    loop with that error after the three calls of the iteration, whatever
    the provider returned and whatever phase it set. *)
Theorem onCreate_loop_stops_on_update_error
    (fuel : nat) (provider : Provider S) (wrapper : ClusterWrapper) (w : World S)
    wrapper' perr s1 cerr s2 e s3 :
  Phase (Status (WCluster wrapper)) = ClusterInitializing →
  OnCreate provider wrapper (ext w) = ((wrapper', perr), s1) →
  CredUpdate (credentials c) (WClusterCredential wrapper') s1 = (cerr, s2) →
  Update (clusters c) (WCluster wrapper') s2 = (Some e, s3) →
  onCreate_loop c (Datatypes.S fuel) provider wrapper w =
    (Returns (Some e),
     {| ext := s3;
        trace := trace w ++
          [ProviderOnCreate wrapper;
           CredentialsUpdate (WClusterCredential wrapper');
           ClustersUpdate (WCluster wrapper')];
        healthCache := healthCache w |}).
Proof.
  intros Hphase Hprov Hcred Hupd.
  rewrite (onCreate_loop_iteration c fuel provider wrapper w _ _ _ _ _ _ _
             Hphase Hprov Hcred Hupd).
  reflexivity.
Qed.

(** X15: the loop does return when the provider makes progress.  Give every
    situation the loop can reach a number of steps still to go, such that a
    situation with no step left is out of Initializing and an iteration from
    a situation with steps left, when its cluster Update succeeds, reaches a
    situation with fewer steps.  Then a budget of at least that many
    iterations is enough for the loop to return. *)
Theorem onCreate_loop_returns_on_progress
    (provider : Provider S) (reachable : ClusterWrapper → S → Prop)
    (steps : ClusterWrapper → S → nat) :
  (∀ wrapper s,
      reachable wrapper s →
      Phase (Status (WCluster wrapper)) = ClusterInitializing →
      (0 < steps wrapper s)%nat
      ∧ ∀ wrapper' perr s1 cerr s2 s3,
          OnCreate provider wrapper s = ((wrapper', perr), s1) →
          CredUpdate (credentials c) (WClusterCredential wrapper') s1 = (cerr, s2) →
          Update (clusters c) (WCluster wrapper') s2 = (None, s3) →
          reachable wrapper' s3 ∧ (steps wrapper' s3 < steps wrapper s)%nat) →
  ∀ (fuel : nat) (wrapper : ClusterWrapper) (w : World S),
    reachable wrapper (ext w) →
    (steps wrapper (ext w) ≤ fuel)%nat →
    ∃ r, fst (onCreate_loop c fuel provider wrapper w) = Returns r.
Proof.
  intros Hstep fuel. induction fuel as [|fuel IH]; intros wrapper w Hreach Hfuel.
  - destruct (String.eqb (Phase (Status (WCluster wrapper))) ClusterInitializing)
      eqn:Hphase.
    + apply String.eqb_eq in Hphase. destruct (Hstep _ _ Hreach Hphase) as [Hpos _]. lia.
    + cbn [onCreate_loop]. rewrite Hphase. eauto.
  - destruct (String.eqb (Phase (Status (WCluster wrapper))) ClusterInitializing)
      eqn:Hphase.
    + apply String.eqb_eq in Hphase.
      destruct (Hstep _ _ Hreach Hphase) as [Hpos Hnext].
      destruct (OnCreate provider wrapper (ext w)) as [[wrapper' perr] s1] eqn:Hprov.
      destruct (CredUpdate (credentials c) (WClusterCredential wrapper') s1)
        as [cerr s2] eqn:Hcred.
      destruct (Update (clusters c) (WCluster wrapper') s2) as [uerr s3] eqn:Hupd.
      rewrite (onCreate_loop_iteration c fuel provider wrapper w _ _ _ _ _ _ _
                 Hphase Hprov Hcred Hupd).
      destruct uerr as [e|]; [simpl; eauto|].
      destruct (Hnext _ _ _ _ _ _ eq_refl Hcred Hupd) as [Hreach' Hless].
      apply IH; simpl; [exact Hreach' | lia].
    + cbn [onCreate_loop]. rewrite Hphase. eauto.
Qed.

End Update_and_create.

(** X12 on the in-memory control plane: the provider's OnUpdate fails, both
    Updates succeed, and [onUpdate] returns nil. *)
Lemma onUpdate_spec_witness :
  onUpdate Fake.controller Fake.imports Scenario.failing_running_c1
    (Fake.world (Fake.store [] [Scenario.failing_running_c1] [Fake.cc_c1]))
  = (None,
     {| ext := Fake.store [] [Scenario.failing_running_c1] [Fake.cc_c1];
        trace :=
          [GetClusterWrapper Scenario.failing_running_c1;
           ProviderOnUpdate {| WCluster := Scenario.failing_running_c1;
                               WClusterCredential := Fake.cc_c1 |};
           CredentialsUpdate Fake.cc_c1;
           ClustersUpdate Scenario.failing_running_c1];
        healthCache := ∅ |}).
Proof.
  apply (onUpdate_spec Fake.controller Fake.imports Scenario.failing_running_c1
           (Fake.world (Fake.store [] [Scenario.failing_running_c1] [Fake.cc_c1]))
           Fake.failing
           {| WCluster := Scenario.failing_running_c1; WClusterCredential := Fake.cc_c1 |}
           (Fake.store [] [Scenario.failing_running_c1] [Fake.cc_c1])
           {| WCluster := Scenario.failing_running_c1; WClusterCredential := Fake.cc_c1 |}
           (Some (errorString "install failed"))
           (Fake.store [] [Scenario.failing_running_c1] [Fake.cc_c1])
           None
           (Fake.store [] [Scenario.failing_running_c1] [Fake.cc_c1])
           None
           (Fake.store [] [Scenario.failing_running_c1] [Fake.cc_c1]));
    reflexivity.
Defined.

(** X13 on the in-memory control plane: no provider for the type; the
    referenced credential is missing; the wrapper cannot be built. *)
Lemma provider_is_called_last_witness :
  (onCreate Fake.controller Fake.imports 1 Scenario.unknown_type_c1
     (Fake.world (Fake.store [] [Scenario.unknown_type_c1] [Fake.cc_c1]))
   = (Returns (Some (errorString "provider not found: Nowhere")),
      Fake.world (Fake.store [] [Scenario.unknown_type_c1] [Fake.cc_c1])))
  ∧ (fst (onCreate Fake.controller Fake.imports 1 Fake.pending_c1
            (Fake.world (Fake.store [] [Fake.pending_c1] [])))
     = Returns (Some (wrapError "ensureClusterCredential error: cc-c1 not found"
                        (Fake.notFound "cc-c1"))))
  ∧ (trace (snd (onUpdate Fake.controller Scenario.no_wrapper_imports Fake.linked_c1
                   (Fake.world (Fake.store [] [Fake.linked_c1] [Fake.cc_c1]))))
     = [GetClusterWrapper Fake.linked_c1])
  ∧ (trace (snd (onCreate Fake.controller Scenario.no_wrapper_imports 1 Fake.pending_c1
                   (Fake.world (Fake.store [] [Fake.pending_c1] [Fake.cc_c1]))))
     = [CredentialsGet "cc-c1"; GetClusterWrapper Fake.pending_c1]).
Proof.
  split; [|split; [|split]].
  - destruct (provider_is_called_last Fake.controller Fake.imports 1
                Scenario.unknown_type_c1
                (Fake.world (Fake.store [] [Scenario.unknown_type_c1] [Fake.cc_c1])))
      as (H & _).
    exact (proj1 (H (errorString "provider not found: Nowhere") eq_refl)).
  - destruct (provider_is_called_last Fake.controller Fake.imports 1 Fake.pending_c1
                (Fake.world (Fake.store [] [Fake.pending_c1] []))) as (_ & H & _).
    rewrite (H Fake.finishing Fake.pending_c1 (Fake.notFound "cc-c1")
               {| ext := Fake.store [] [Fake.pending_c1] [];
                  trace := [CredentialsGet "cc-c1"]; healthCache := ∅ |}
               eq_refl eq_refl).
    reflexivity.
  - destruct (provider_is_called_last Fake.controller Scenario.no_wrapper_imports 1
                Fake.linked_c1
                (Fake.world (Fake.store [] [Fake.linked_c1] [Fake.cc_c1])))
      as (_ & _ & H & _).
    rewrite (H Fake.finishing (errorString "credential unreadable")
               (Fake.store [] [Fake.linked_c1] [Fake.cc_c1]) eq_refl eq_refl).
    reflexivity.
  - destruct (provider_is_called_last Fake.controller Scenario.no_wrapper_imports 1
                Fake.pending_c1
                (Fake.world (Fake.store [] [Fake.pending_c1] [Fake.cc_c1])))
      as (_ & _ & _ & H).
    rewrite (H Fake.finishing Fake.pending_c1
               {| ext := Fake.store [] [Fake.pending_c1] [Fake.cc_c1];
                  trace := [CredentialsGet "cc-c1"]; healthCache := ∅ |}
               (errorString "credential unreadable")
               (Fake.store [] [Fake.pending_c1] [Fake.cc_c1])
               eq_refl eq_refl eq_refl).
    reflexivity.
Defined.

(** X14 on the in-memory control plane: the provider finishes, but the API
    server refuses both Updates. *)
Lemma onCreate_loop_stops_on_update_error_witness :
  fst (onCreate_loop Fake.controller 1 Fake.finishing Scenario.fresh_wrapper
         (Fake.world (Fake.with_api_down
                        (Fake.store [] [Fake.pending_c1] [Fake.cc_c1]))))
  = Returns (Some Fake.connRefused).
Proof.
  rewrite (onCreate_loop_stops_on_update_error Fake.controller 0 Fake.finishing
             Scenario.fresh_wrapper
             (Fake.world (Fake.with_api_down
                            (Fake.store [] [Fake.pending_c1] [Fake.cc_c1])))
             {| WCluster := set_Phase ClusterRunning Fake.pending_c1;
                WClusterCredential := Fake.cc_c1 |}
             None
             (Fake.with_api_down (Fake.store [] [Fake.pending_c1] [Fake.cc_c1]))
             (Some Fake.connRefused)
             (Fake.with_api_down (Fake.store [] [Fake.pending_c1] [Fake.cc_c1]))
             Fake.connRefused
             (Fake.with_api_down (Fake.store [] [Fake.pending_c1] [Fake.cc_c1]))
             eq_refl eq_refl eq_refl eq_refl).
  reflexivity.
Defined.

(** X15 on the in-memory control plane: the finishing provider needs one
    iteration. *)
Lemma onCreate_loop_returns_on_progress_witness :
  ∃ r, fst (onCreate_loop Fake.controller 1 Fake.finishing Scenario.fresh_wrapper
              (Fake.world (Fake.store [] [Fake.pending_c1] [Fake.cc_c1])))
       = Returns r.
Proof.
  apply (onCreate_loop_returns_on_progress Fake.controller Fake.finishing
           (λ _ _, True) Scenario.steps_left).
  - intros wrapper s _ Hphase. unfold Scenario.steps_left. rewrite Hphase. split.
    + vm_compute. lia.
    + intros wrapper' perr s1 cerr s2 s3 Hprov _ _. simpl in Hprov.
      injection Hprov as <- _ _. split; [exact I|]. vm_compute. lia.
  - exact I.
  - vm_compute. lia.
Defined.

(** ** Errors of the credential steps *)

Section Credential_errors.

Context {S : Type}.
Variable c : Controller S.

(** X16: the credential steps hand an API error back as it is and leave the
    cluster alone: a failed List in the legacy sync, a Create that fails
    with anything but AlreadyExists, and a failed Get of the referenced
    credential each end the step after that one call with that error, and
    no Update follows.  An "Imported" cluster without reference passes
    [ensureClusterCredential] without any call. *)
Theorem credential_errors_abort (cluster : Cluster) (w : World S) :
  (∀ e s1,
      ClusterCredentialRef (Spec cluster) = None →
      List (credentials c) (fields.OneTermEqualSelector "clusterName" (Name cluster))
        (ext w) = (inr e, s1) →
      ensureSyncOldClusterCredential c cluster w =
        ((cluster, Some e),
         {| ext := s1;
            trace := trace w ++
              [CredentialsList (fields.OneTermEqualSelector "clusterName" (Name cluster))];
            healthCache := healthCache w |}))
  ∧ (∀ credential e s1,
      ClusterCredentialRef (Spec cluster) = None →
      Type_ (Spec cluster) ≠ "Imported" →
      Create (credentials c)
        {| CredName := ""; CredTenantID := TenantID (Spec cluster);
           ClusterName := Name cluster |} (ext w) = ((credential, Some e), s1) →
      apierrors.IsAlreadyExists (Some e) = false →
      ensureClusterCredential c cluster w =
        ((cluster, Some e),
         {| ext := s1;
            trace := trace w ++
              [CredentialsCreate
                 {| CredName := ""; CredTenantID := TenantID (Spec cluster);
                    ClusterName := Name cluster |}];
            healthCache := healthCache w |}))
  ∧ (∀ ref e s1,
      ClusterCredentialRef (Spec cluster) = Some ref →
      CredGet (credentials c) (RefName ref) (ext w) = (inr e, s1) →
      ensureClusterCredential c cluster w =
        ((cluster, Some e),
         {| ext := s1; trace := trace w ++ [CredentialsGet (RefName ref)];
            healthCache := healthCache w |}))
  ∧ (ClusterCredentialRef (Spec cluster) = None →
     Type_ (Spec cluster) = "Imported" →
     ensureClusterCredential c cluster w = ((cluster, None), w)).
Proof.
  split; [|split; [|split]].
  - intros e s1 Href Hlist. unfold ensureSyncOldClusterCredential. rewrite Href. run.
    reflexivity.
  - intros credential e s1 Href Hty Hcreate Hother.
    exact (ensureClusterCredential_create_fails c cluster w credential e s1
             Href Hty Hcreate Hother).
  - intros ref e s1 Href Hget. unfold ensureClusterCredential. rewrite Href. run.
    reflexivity.
  - apply ensureClusterCredential_imported.
Qed.

End Credential_errors.

(** X16 on the in-memory control plane: the List is refused; the API server
    is down at Create; the referenced credential does not exist; the
    cluster is Imported. *)
Lemma credential_errors_abort_witness :
  (fst (ensureSyncOldClusterCredential Scenario.list_down_controller Fake.fresh_c1
          (Fake.world (Fake.store [] [Fake.fresh_c1] [])))
   = (Fake.fresh_c1, Some Fake.connRefused))
  ∧ (ensureClusterCredential Fake.controller Fake.fresh_c1
       (Fake.world (Fake.with_api_down (Fake.store [] [Fake.fresh_c1] [])))
     = ((Fake.fresh_c1, Some Fake.connRefused),
        {| ext := Fake.with_api_down (Fake.store [] [Fake.fresh_c1] []);
           trace := [CredentialsCreate (fresh_credential Fake.fresh_c1)];
           healthCache := ∅ |}))
  ∧ (ensureClusterCredential Fake.controller Fake.pending_c1
       (Fake.world (Fake.store [] [Fake.pending_c1] []))
     = ((Fake.pending_c1, Some (Fake.notFound "cc-c1")),
        {| ext := Fake.store [] [Fake.pending_c1] [];
           trace := [CredentialsGet "cc-c1"]; healthCache := ∅ |}))
  ∧ (trace (snd (ensureClusterCredential Fake.controller Fake.imported_c1
                   (Fake.world (Fake.store [] [Fake.imported_c1] []))))
     = []).
Proof.
  split; [|split; [|split]].
  - destruct (credential_errors_abort Scenario.list_down_controller Fake.fresh_c1
                (Fake.world (Fake.store [] [Fake.fresh_c1] []))) as (H & _).
    rewrite (H Fake.connRefused (Fake.store [] [Fake.fresh_c1] []) eq_refl eq_refl).
    reflexivity.
  - destruct (credential_errors_abort Fake.controller Fake.fresh_c1
                (Fake.world (Fake.with_api_down (Fake.store [] [Fake.fresh_c1] []))))
      as (_ & H & _).
    apply (H {| CredName := ""; CredTenantID := ""; ClusterName := "" |}
             Fake.connRefused
             (Fake.with_api_down (Fake.store [] [Fake.fresh_c1] []))).
    + reflexivity.
    + vm_compute. discriminate.
    + reflexivity.
    + reflexivity.
  - destruct (credential_errors_abort Fake.controller Fake.pending_c1
                (Fake.world (Fake.store [] [Fake.pending_c1] []))) as (_ & _ & H & _).
    exact (H {| RefName := "cc-c1" |} (Fake.notFound "cc-c1")
             (Fake.store [] [Fake.pending_c1] []) eq_refl eq_refl).
  - destruct (credential_errors_abort Fake.controller Fake.imported_c1
                (Fake.world (Fake.store [] [Fake.imported_c1] []))) as (_ & _ & _ & H).
    rewrite (H eq_refl eq_refl). reflexivity.
Defined.

(** ** Results of a health check *)

Section Health_results.

Context {S : Type}.
Variable c : Controller S.
Variable pkg : Imports S.


(** X18: whatever the probe and the patch do, the cluster a health check
    leaves has the name and the Spec it had, a phase that is Running or
    Failed, a HealthCheck condition, and its version unchanged unless the
    phase is Running; and [healthCache] is as it was. *)
Theorem checkHealth_frame (cluster : Cluster) (w : World S) :
  Name (fst (fst (checkHealth c pkg cluster w))) = Name cluster
  ∧ Spec (fst (fst (checkHealth c pkg cluster w))) = Spec cluster
  ∧ (Phase (Status (fst (fst (checkHealth c pkg cluster w)))) = ClusterRunning
     ∨ Phase (Status (fst (fst (checkHealth c pkg cluster w)))) = ClusterFailed
       ∧ Version (Status (fst (fst (checkHealth c pkg cluster w))))
         = Version (Status cluster))
  ∧ has_condition conditionTypeHealthCheck
      (conditions_of (fst (fst (checkHealth c pkg cluster w)))) = true
  ∧ healthCache (snd (checkHealth c pkg cluster w)) = healthCache w.
Proof.
  assert (Hcond : ∀ cond cl, CondType cond = conditionTypeHealthCheck →
            has_condition conditionTypeHealthCheck
              (conditions_of (SetCondition cond cl)) = true).
  { intros cond cl Hty. apply has_condition_true. exists cond.
    split; [|exact Hty]. exact (proj1 (SetCondition_upserted cond cl)). }
  split; [|split; [|split; [|split]]]; try apply checkHealth_healthCache;
    destruct (BuildExternalClientSet pkg cluster (ext w)) as [[client|e] s1] eqn:HB;
    try (destruct (ServerVersion client s1) as [[v|e] s2] eqn:HV);
    first [ rewrite (checkHealth_healthy c pkg cluster w client s1 v s2 HB HV)
          | rewrite (checkHealth_version_fails c pkg cluster w client s1 e s2 HB HV)
          | rewrite (checkHealth_build_fails c pkg cluster w e s1 HB) ];
    try reflexivity; try (left; reflexivity); try (right; split; reflexivity);
    apply Hcond; reflexivity.
Qed.

End Health_results.



(** X8 and X9 on the in-memory control plane: a legacy cluster gets its
    reference and the Update is the last call; a fresh cluster likewise. *)
Lemma ensureSyncOldClusterCredential_frame_witness :
  last (trace (snd (ensureSyncOldClusterCredential Fake.controller Fake.legacy_c1
                      (Fake.world (Fake.store [] [Fake.legacy_c1] [Fake.cc_c1])))))
  = Some (ClustersUpdate Fake.linked_c1).
Proof.
  destruct (ensureSyncOldClusterCredential_frame Fake.controller Fake.legacy_c1
              (Fake.world (Fake.store [] [Fake.legacy_c1] [Fake.cc_c1])))
    as (_ & _ & H).
  destruct (H ltac:(vm_compute; discriminate)) as [_ Hlast].
  exact Hlast.
Defined.

Lemma ensureClusterCredential_frame_witness :
  last (trace (snd (ensureClusterCredential Fake.controller Fake.fresh_c1
                      (Fake.world (Fake.store [] [Fake.fresh_c1] [])))))
  = Some (ClustersUpdate Fake.pending_c1).
Proof.
  destruct (ensureClusterCredential_frame Fake.controller Fake.fresh_c1
              (Fake.world (Fake.store [] [Fake.fresh_c1] []))) as (_ & _ & H).
  exact (H ltac:(vm_compute; discriminate)).
Defined.

(** ** A lookup that fails *)

Section Lookup_errors.

Context {S : Type}.
Variable c : Controller S.
Variable pkg : Imports S.

(** X19: whenever the lister returns an error, of whatever kind, the sync
    returns that very error without running [reconcile]: nothing is sent to
    the API and the outside state is untouched.  The line
    "cluster has been deleted" is logged exactly when the error is
    NotFound. *)
Theorem syncCluster_lister_error
    (fuel : nat) (key namespace name : string) (w : World S) (err : error) :
  cache.SplitMetaNamespaceKey key = (namespace, name, None) →
  lister_Get c name (ext w) = inr err →
  fst (syncCluster c pkg fuel key w) = Returns (Some err)
  ∧ ext (snd (syncCluster c pkg fuel key w)) = ext w
  ∧ api_calls (trace (snd (syncCluster c pkg fuel key w))) = api_calls (trace w)
  ∧ ∃ added,
      trace (snd (syncCluster c pkg fuel key w)) = trace w ++ added
      ∧ (LogInfo "cluster has been deleted" ∈ added ↔
         apierrors.IsNotFound (Some err) = true).
Proof.
  intros Hkey Hget. unfold syncCluster, syncCluster_body. rewrite Hkey. run.
  destruct (apierrors.IsNotFound (Some err)); run.
  - repeat split.
    + rewrite !api_calls_app. simpl. rewrite !app_nil_r. reflexivity.
    + eexists. rewrite <- !app_assoc. split; [reflexivity|].
      split; [reflexivity|]. intros _. apply list_elem_of_In. simpl. auto.
  - repeat split.
    + rewrite !api_calls_app. simpl. rewrite !app_nil_r. reflexivity.
    + eexists. rewrite <- !app_assoc. split; [reflexivity|].
      split; [|discriminate]. intros Hin. apply list_elem_of_In in Hin. simpl in Hin.
      destruct Hin as [H | [H | [H | []]]]; discriminate H.
Qed.

End Lookup_errors.

(** X19 on the in-memory control plane: the informer cache is unavailable. *)
Lemma syncCluster_lister_error_witness :
  fst (syncCluster Fake.controller Fake.imports 1 "c1"
         (Fake.world (Fake.with_cache_broken (Fake.store [] [Fake.linked_c1] []))))
    = Returns (Some (errorString "cache unavailable"))
  ∧ api_calls (trace (snd (syncCluster Fake.controller Fake.imports 1 "c1"
         (Fake.world (Fake.with_cache_broken (Fake.store [] [Fake.linked_c1] []))))))
    = [].
Proof.
  destruct (syncCluster_lister_error Fake.controller Fake.imports 1 "c1" "" "c1"
              (Fake.world (Fake.with_cache_broken (Fake.store [] [Fake.linked_c1] [])))
              (errorString "cache unavailable") eq_refl eq_refl)
    as (Hret & _ & Hapi & _).
  split; [exact Hret | exact Hapi].
Defined.
